(** * ts-enum-util: the comparison and lookup core of [src/enums.ts]

    A shallow embedding of [src/enums.ts] together with the part of the
    JavaScript runtime it runs on, and the properties of the specification
    settled against it.

    Layout:
    - [JsNumber], [JsString]: the runtime's numbers and strings;
    - [JsVal] and the object model ([typeof], [Object_keys], [Get], ...);
    - completions and the run monad [M] (exceptions and the predicate log);
    - the functions of [src/enums.ts], under the names they have there;
    - the theorems. *)

From Stdlib Require Import ZArith List String Ascii Bool Lia DecimalString.
Import ListNotations.
Local Open Scope string_scope.
Local Open Scope list_scope.
Local Open Scope nat_scope.

(* ===================================================================== *)
(** ** Numbers *)
(* ===================================================================== *)

(** The Number type.  The library never does arithmetic on numbers: it tests
    them with [Number.isNaN], compares them with [===], reads them from
    strings ([Number(s)]) and prints them ([String(n)]).  A number is
    therefore modelled by its exact decimal value [m * 10^e], beside [NaN]
    and the two infinities.  The binary64 rounding of literals with more
    than 15 significant digits, overflow to [Infinity] and underflow to zero
    are not modelled; [-0] is not kept apart from [+0] (no operation used
    here tells them apart: [-0 === 0] and [String(-0)] is ["0"]). *)
Module JsNumber.

Inductive number : Type :=
| NaN : number
| Infinity (negative : bool) : number
| Fin (m : Z) (e : Z) : number.

Definition of_Z (z : Z) : number := Fin z 0.

(** [Number.isNaN] on a value that is a number. *)
Definition isNaN (n : number) : bool :=
  match n with NaN => true | _ => false end.

(** [x === y] on numbers: [NaN] is equal to nothing, itself included; two
    finite numbers are compared by value, whatever their exponents. *)
Definition eqb (x y : number) : bool :=
  match x, y with
  | Infinity s, Infinity t => Bool.eqb s t
  | Fin m1 e1, Fin m2 e2 =>
      let e := Z.min e1 e2 in
      (m1 * 10 ^ (e1 - e) =? m2 * 10 ^ (e2 - e))%Z
  | _, _ => false
  end.

(** [x * y], as far as the converters of the test-suite need it. *)
Definition mul (x y : number) : number :=
  match x, y with
  | NaN, _ | _, NaN => NaN
  | Infinity s, Infinity t => Infinity (xorb s t)
  | Infinity s, Fin m _ | Fin m _, Infinity s =>
      if (m =? 0)%Z then NaN else Infinity (xorb s (m <? 0)%Z)
  | Fin m1 e1, Fin m2 e2 => Fin (m1 * m2) (e1 + e2)
  end.

(** *** Reading a number: the StringNumericLiteral grammar *)

Definition digit_value (radix : nat) (c : ascii) : option nat :=
  let n := nat_of_ascii c in
  let v :=
    if (48 <=? n) && (n <=? 57) then Some (n - 48)
    else if (97 <=? n) && (n <=? 102) then Some (n - 87)
    else if (65 <=? n) && (n <=? 70) then Some (n - 55)
    else None in
  match v with
  | Some d => if d <? radix then Some d else None
  | None => None
  end.

(** The longest prefix of digits of [cs] in base [radix], read as a
    number (with the number of digits read), and what follows it. *)
Fixpoint digits (radix : nat) (acc : Z) (len : nat) (cs : list ascii)
  : Z * nat * list ascii :=
  match cs with
  | c :: rest =>
      match digit_value radix c with
      | Some d => digits radix (acc * Z.of_nat radix + Z.of_nat d) (S len) rest
      | None => (acc, len, cs)
      end
  | [] => (acc, len, cs)
  end.

Definition is_char (c : ascii) (s : string) : bool :=
  (String c EmptyString =? s)%string.

(** ExponentPart: [e] or [E], an optional sign, at least one digit. *)
Definition exponent_part (cs : list ascii) : option Z :=
  match cs with
  | [] => Some 0%Z
  | c :: rest =>
      if is_char c "e" || is_char c "E" then
        let '(neg, ds) :=
          match rest with
          | s :: ds' =>
              if is_char s "-" then (true, ds')
              else if is_char s "+" then (false, ds')
              else (false, rest)
          | [] => (false, rest)
          end in
        match digits 10 0 0 ds with
        | (x, S _, []) => Some (if neg then (- x)%Z else x)
        | _ => None
        end
      else None
  end.

(** StrUnsignedDecimalLiteral: [Infinity], [d.d?e?], [.de?] or [de?]. *)
Definition unsigned_decimal (cs : list ascii) : number :=
  if (string_of_list_ascii cs =? "Infinity")%string then Infinity false
  else
    let '(ip, ilen, r1) := digits 10 0 0 cs in
    let '(m, flen, r3) :=
      match r1 with
      | c :: r2 => if is_char c "." then digits 10 ip 0 r2 else (ip, 0, r1)
      | [] => (ip, 0, r1)
      end in
    if (ilen + flen =? 0)%nat then NaN
    else
      match exponent_part r3 with
      | Some x => Fin m (x - Z.of_nat flen)
      | None => NaN
      end.

Definition negate (n : number) : number :=
  match n with
  | NaN => NaN
  | Infinity s => Infinity (negb s)
  | Fin m e => Fin (- m) e
  end.

(** NonDecimalIntegerLiteral: [0b], [0o] or [0x] (either case) and at
    least one digit of that base; it takes no sign. *)
Definition non_decimal (cs : list ascii) : option number :=
  match cs with
  | z :: p :: ds =>
      let radix :=
        if negb (is_char z "0") then None
        else if is_char p "x" || is_char p "X" then Some 16
        else if is_char p "o" || is_char p "O" then Some 8
        else if is_char p "b" || is_char p "B" then Some 2
        else None in
      match radix with
      | Some r =>
          match digits r 0 0 ds with
          | (x, S _, []) => Some (Fin x 0)
          | _ => Some NaN
          end
      | None => None
      end
  | _ => None
  end.

(** StringToNumber on a string without surrounding white space. *)
Definition of_trimmed (cs : list ascii) : number :=
  match cs with
  | [] => Fin 0 0
  | c :: rest =>
      match non_decimal cs with
      | Some n => n
      | None =>
          if is_char c "-" then negate (unsigned_decimal rest)
          else if is_char c "+" then unsigned_decimal rest
          else unsigned_decimal cs
      end
  end.

(** *** Printing a number: Number::toString in base 10 *)

Fixpoint strip_zeros (rev_digits : list ascii) (e : Z) : list ascii * Z :=
  match rev_digits with
  | c :: rest =>
      if is_char c "0" then strip_zeros rest (e + 1)%Z else (rev_digits, e)
  | [] => ([], e)
  end.

Definition Z_digits (z : Z) : list ascii :=
  list_ascii_of_string (NilEmpty.string_of_uint (N.to_uint (Z.abs_N z))).

Definition zeros (n : nat) : list ascii := repeat "0"%char n.

Definition to_string (x : number) : string :=
  match x with
  | NaN => "NaN"
  | Infinity false => "Infinity"
  | Infinity true => "-Infinity"
  | Fin m e =>
      if (m =? 0)%Z then "0"
      else
        let '(rds, e') := strip_zeros (rev (Z_digits m)) e in
        let ds := rev rds in
        let k := Z.of_nat (List.length ds) in
        let n := (k + e')%Z in
        let body :=
          if ((k <=? n) && (n <=? 21))%Z then
            ds ++ zeros (Z.to_nat (n - k))
          else if ((0 <? n) && (n <=? 21))%Z then
            firstn (Z.to_nat n) ds ++ "."%char :: skipn (Z.to_nat n) ds
          else if ((-6 <? n) && (n <=? 0))%Z then
            "0"%char :: "."%char :: zeros (Z.to_nat (- n)) ++ ds
          else
            let x := (n - 1)%Z in
            let mant :=
              match ds with
              | d :: (_ :: _) as frac => d :: "."%char :: frac
              | _ => ds
              end in
            mant ++ "e"%char :: (if (x <? 0)%Z then "-"%char else "+"%char)
                 :: Z_digits x in
        string_of_list_ascii
          (if (m <? 0)%Z then "-"%char :: body else body)
  end.

End JsNumber.

(* ===================================================================== *)
(** ** Strings *)
(* ===================================================================== *)

(** Strings are byte strings.  [trim] and [toLowerCase] are those of ASCII:
    the white space and line terminators below U+0080, and the letters
    [A]-[Z]; code points above U+007F are left as they are. *)
Module JsString.

Definition is_white_space (c : ascii) : bool :=
  let n := nat_of_ascii c in
  ((9 <=? n) && (n <=? 13)) || (n =? 32).

Fixpoint trim_start (cs : list ascii) : list ascii :=
  match cs with
  | c :: rest => if is_white_space c then trim_start rest else cs
  | [] => []
  end.

(** [String.prototype.trim]. *)
Definition trim (s : string) : string :=
  string_of_list_ascii
    (rev (trim_start (rev (trim_start (list_ascii_of_string s))))).

Definition lower_char (c : ascii) : ascii :=
  let n := nat_of_ascii c in
  if (65 <=? n) && (n <=? 90) then ascii_of_nat (n + 32) else c.

(** [String.prototype.toLowerCase]. *)
Fixpoint toLowerCase (s : string) : string :=
  match s with
  | EmptyString => EmptyString
  | String c rest => String (lower_char c) (toLowerCase rest)
  end.

(** [Number(s)] on a string: StringToNumber. *)
Definition to_number (s : string) : JsNumber.number :=
  JsNumber.of_trimmed (list_ascii_of_string (trim s)).

Definition of_nat (n : nat) : string :=
  NilEmpty.string_of_uint (Nat.to_uint n).

Definition of_Z (z : Z) : string :=
  NilEmpty.string_of_int (Z.to_int z).

End JsString.

(* ===================================================================== *)
(** ** Completions *)
(* ===================================================================== *)

(** What a [throw] carries: an [Error] or a [TypeError] with its message. *)
Inductive Exn : Type :=
| Error (message : string)
| TypeError (message : string).

(** The completion of an evaluation: a value, or an exception. *)
Inductive Completion (A : Type) : Type :=
| Normal (a : A)
| Throw (e : Exn).

Arguments Normal {A} a.
Arguments Throw {A} e.

Definition cbind {A B : Type} (c : Completion A) (k : A -> Completion B)
  : Completion B :=
  match c with
  | Normal a => k a
  | Throw e => Throw e
  end.

Definition throws {A : Type} (c : Completion A) : Prop :=
  exists e, c = Throw e.

(* ===================================================================== *)
(** ** Values *)
(* ===================================================================== *)

(** A property key of an object: a string or a symbol. *)
Inductive PropKey : Type :=
| KString (name : string)
| KSymbol (id : nat).

(** The values of the language.  Objects, arrays, functions and symbols have
    an identity ([ref], [id]): [===] compares them by it.  An object carries
    its own properties in the order [[OwnPropertyKeys]] lists them (integer
    keys first, then the other strings in creation order, then symbols),
    each with its [enumerable] flag, and the enumerable string-keyed
    properties it inherits from its prototype chain, and [printed], the
    completion of converting it to a string: what its [toString], [valueOf]
    or [Symbol.toPrimitive] make of it, ["[object Object]"] for an ordinary
    object, a [TypeError] for an object without prototype, any text or any
    exception for an object with methods of its own.  An array carries its
    elements ([None] is a hole) and the other own properties it was given
    ([props]: the [index], [input] and [groups] of a match result, say); its
    own properties are its present indices, the non-enumerable [length],
    then [props].  Properties are data properties: accessors and proxies
    are not modelled. *)
#[local] Set Warnings "-register-all".
Inductive JsVal : Type :=
| JUndefined
| JNull
| JBool (b : bool)
| JNum (n : JsNumber.number)
| JStr (s : string)
| JBigInt (z : Z)
| JSymbol (id : nat) (description : string)
| JFunction (ref : nat) (source : string)
| JObject (ref : nat) (own : list (PropKey * (bool * JsVal)))
          (inherited : list (string * JsVal)) (printed : Completion string)
| JArray (ref : nat) (elems : list (option JsVal))
         (props : list (PropKey * (bool * JsVal))).

(** A number literal that is an integer. *)
Definition JInt (z : Z) : JsVal := JNum (JsNumber.of_Z z).

(** An object literal [{k1: v1, ...}]: a plain object (identity [ref])
    whose properties are all own, enumerable and string-keyed, and which
    prints as an ordinary object does. *)
Definition object_literal (ref : nat) (props : list (string * JsVal)) : JsVal :=
  JObject ref (map (fun kv => (KString (fst kv), (true, snd kv))) props) []
          (Normal "[object Object]").

(** [typeof v]. *)
Definition typeof (v : JsVal) : string :=
  match v with
  | JUndefined => "undefined"
  | JNull => "object"
  | JBool _ => "boolean"
  | JNum _ => "number"
  | JStr _ => "string"
  | JBigInt _ => "bigint"
  | JSymbol _ _ => "symbol"
  | JFunction _ _ => "function"
  | JObject _ _ _ _ => "object"
  | JArray _ _ _ => "object"
  end.

(** ToBoolean: what [!v] and [v ? _ : _] test. *)
Definition truthy (v : JsVal) : bool :=
  match v with
  | JUndefined | JNull => false
  | JBool b => b
  | JNum JsNumber.NaN => false
  | JNum (JsNumber.Fin m _) => negb (m =? 0)%Z
  | JNum (JsNumber.Infinity _) => true
  | JStr s => negb (s =? "")%string
  | JBigInt z => negb (z =? 0)%Z
  | _ => true
  end.

(** [v == null]: true of [null] and [undefined] only. *)
Definition is_nullish (v : JsVal) : bool :=
  match v with
  | JUndefined | JNull => true
  | _ => false
  end.

(** [x === y]. *)
Definition strict_equal (x y : JsVal) : bool :=
  match x, y with
  | JUndefined, JUndefined => true
  | JNull, JNull => true
  | JBool a, JBool b => Bool.eqb a b
  | JNum a, JNum b => JsNumber.eqb a b
  | JStr a, JStr b => (a =? b)%string
  | JBigInt a, JBigInt b => (a =? b)%Z
  | JSymbol a _, JSymbol b _ => a =? b
  | JFunction a _, JFunction b _ => a =? b
  | JObject a _ _ _, JObject b _ _ _ => a =? b
  | JArray a _ _, JArray b _ _ => a =? b
  | _, _ => false
  end.

(* ===================================================================== *)
(** ** Conversions of the runtime *)
(* ===================================================================== *)

Definition symbol_error : Exn :=
  TypeError "Cannot convert a Symbol value to a string".

(** ToString, the conversion a template literal applies.  An object
    completes as its own conversion does ([printed]: a text, or the
    exception its methods raise), an array prints as its elements joined by
    commas ([null], [undefined] and holes print as nothing), a function as
    its source text; a symbol raises a TypeError. *)
Fixpoint ToString (v : JsVal) : Completion string :=
  match v with
  | JUndefined => Normal "undefined"
  | JNull => Normal "null"
  | JBool true => Normal "true"
  | JBool false => Normal "false"
  | JNum n => Normal (JsNumber.to_string n)
  | JStr s => Normal s
  | JBigInt z => Normal (JsString.of_Z z)
  | JSymbol _ _ => Throw symbol_error
  | JFunction _ source => Normal source
  | JObject _ _ _ printed => printed
  | JArray _ elems _ =>
      (fix join (es : list (option JsVal)) : Completion string :=
         match es with
         | [] => Normal ""
         | e :: rest =>
             cbind
               (match e with
                | None | Some JUndefined | Some JNull => Normal ""
                | Some x => ToString x
                end)
               (fun s =>
                  match rest with
                  | [] => Normal s
                  | _ :: _ => cbind (join rest) (fun r => Normal (s ++ "," ++ r)%string)
                  end)
         end) elems
  end.

(** [String(v)]: ToString, except that a symbol prints its description. *)
Definition String_ (v : JsVal) : Completion string :=
  match v with
  | JSymbol _ description => Normal ("Symbol(" ++ description ++ ")")%string
  | _ => ToString v
  end.

(** [Number(v)]: ToNumber.  An object goes through its string form, as
    [valueOf] of an ordinary object returns the object; an object with a
    [valueOf] of its own is not told apart here.  The library never calls
    [Number] on an object: it is used by the converters of the test-suite. *)
Definition Number_ (v : JsVal) : Completion JsNumber.number :=
  match v with
  | JUndefined => Normal JsNumber.NaN
  | JNull => Normal (JsNumber.of_Z 0)
  | JBool b => Normal (JsNumber.of_Z (if b then 1 else 0))
  | JNum n => Normal n
  | JStr s => Normal (JsString.to_number s)
  | JBigInt z => Normal (JsNumber.of_Z z)
  | JSymbol _ _ => Throw (TypeError "Cannot convert a Symbol value to a number")
  | _ => cbind (ToString v) (fun s => Normal (JsString.to_number s))
  end.

(* ===================================================================== *)
(** ** Objects *)
(* ===================================================================== *)

(** The own properties of a value that is an object, in the order of
    [[OwnPropertyKeys]]. *)
Fixpoint array_props (i : nat) (elems : list (option JsVal))
  : list (PropKey * (bool * JsVal)) :=
  match elems with
  | [] => []
  | Some v :: rest => (KString (JsString.of_nat i), (true, v)) :: array_props (S i) rest
  | None :: rest => array_props (S i) rest
  end.

Definition own_props (o : JsVal) : list (PropKey * (bool * JsVal)) :=
  match o with
  | JObject _ own _ _ => own
  | JArray _ elems props =>
      array_props 0 elems
        ++ (KString "length", (false, JInt (Z.of_nat (List.length elems)))) :: props
  | _ => []
  end.

Definition inherited_props (o : JsVal) : list (string * JsVal) :=
  match o with
  | JObject _ _ inherited _ => inherited
  | _ => []
  end.

(** The own string-keyed properties: name, enumerable flag, value. *)
Fixpoint string_keyed (ps : list (PropKey * (bool * JsVal)))
  : list (string * (bool * JsVal)) :=
  match ps with
  | [] => []
  | (KString k, d) :: rest => (k, d) :: string_keyed rest
  | (KSymbol _, _) :: rest => string_keyed rest
  end.

(** The own enumerable string-keyed properties, as [Object.entries] lists them. *)
Definition Object_entries (o : JsVal) : list (string * JsVal) :=
  map (fun p => (fst p, snd (snd p)))
      (filter (fun p => fst (snd p)) (string_keyed (own_props o))).

(** [Object.keys(o)] and [Object.values(o)]. *)
Definition Object_keys (o : JsVal) : list string := map fst (Object_entries o).
Definition Object_values (o : JsVal) : list JsVal := map snd (Object_entries o).

Fixpoint assoc {A : Type} (k : string) (l : list (string * A)) : option A :=
  match l with
  | [] => None
  | (k', a) :: rest => if (k' =? k)%string then Some a else assoc k rest
  end.

(** [Object.hasOwn(o, key)] for a string key. *)
Definition hasOwn (o : JsVal) (key : string) : bool :=
  match assoc key (string_keyed (own_props o)) with
  | Some _ => true
  | None => false
  end.

(** [o[key]] for a string key: the own property, else the inherited one,
    else [undefined]. *)
Definition Get (o : JsVal) (key : string) : JsVal :=
  match assoc key (string_keyed (own_props o)) with
  | Some (_, v) => v
  | None =>
      match assoc key (inherited_props o) with
      | Some v => v
      | None => JUndefined
      end
  end.

(** The keys [for (const key in o)] visits: the own enumerable string keys,
    then the inherited enumerable ones that no own property shadows. *)
Definition for_in_keys (o : JsVal) : list string :=
  Object_keys o
    ++ filter (fun k => negb (hasOwn o k)) (map fst (inherited_props o)).

(** Objects have one property per key. *)
Definition well_formed (o : JsVal) : Prop :=
  NoDup (map fst (string_keyed (own_props o))).

(* ===================================================================== *)
(** ** Runs *)
(* ===================================================================== *)

(** The library is free of effects of its own; what a call can be seen to
    do, beside completing, is invoke the predicate that [equalFn] built.
    A run therefore carries a log with one entry per invocation of that
    predicate, in order, with the operands it was given. *)
Inductive Event : Type :=
| Compared (candidate input : JsVal).

Record Run (A : Type) : Type := mkRun {
  log : list Event;
  completion : Completion A
}.

Arguments mkRun {A} log completion.
Arguments log {A} r.
Arguments completion {A} r.

Definition ret {A : Type} (a : A) : Run A := mkRun [] (Normal a).
Definition throw {A : Type} (e : Exn) : Run A := mkRun [] (Throw e).
Definition lift {A : Type} (c : Completion A) : Run A := mkRun [] c.
Definition tell (ev : Event) : Run unit := mkRun [ev] (Normal tt).

Definition bind {A B : Type} (m : Run A) (k : A -> Run B) : Run B :=
  match completion m with
  | Normal a => let r := k a in mkRun (log m ++ log r) (completion r)
  | Throw e => mkRun (log m) (Throw e)
  end.

Declare Scope run_scope.
Delimit Scope run_scope with run.
Notation "x <- m ;; k" := (bind m (fun x => k))
  (at level 61, m at next level, right associativity) : run_scope.
Notation "m ;; k" := (bind m (fun _ => k))
  (at level 61, right associativity) : run_scope.
Local Open Scope run_scope.

(** [Array.prototype.filter]: the callback is called on every element, in
    order; an exception of the callback ends the scan. *)
Fixpoint Array_filter {A : Type} (callback : A -> Run bool) (l : list A)
  : Run (list A) :=
  match l with
  | [] => ret []
  | x :: rest =>
      keep <- callback x ;;
      kept <- Array_filter callback rest ;;
      ret (if keep then x :: kept else kept)
  end.

(** [Array.prototype.some]: the scan stops at the first element the
    callback accepts. *)
Fixpoint Array_some {A : Type} (callback : A -> Run bool) (l : list A)
  : Run bool :=
  match l with
  | [] => ret false
  | x :: rest =>
      hit <- callback x ;;
      if hit then ret true else Array_some callback rest
  end.

(** [a[0]]: the first element, [undefined] on an empty array. *)
Definition first_value (a : list JsVal) : JsVal := nth 0 a JUndefined.
Definition first_key (a : list string) : JsVal :=
  match a with
  | k :: _ => JStr k
  | [] => JUndefined
  end.

(* ===================================================================== *)
(** ** src/enums.ts *)
(* ===================================================================== *)

(** [TypeConverter], and the type of [normalize]: a function of the caller,
    which returns a value or throws. *)
Definition Hook : Type := JsVal -> Completion JsVal.

(** [interface EnumOptions]: four optional fields. *)
Record EnumOptions : Type := mkOptions {
  normalize : option Hook;
  ignoreCase : option bool;
  convert : option bool;
  converter : option Hook
}.

(** The options object [{}]. *)
Definition no_options : EnumOptions := mkOptions None None None None.

(** [options?.field]. *)
Definition field {A : Type} (options : option EnumOptions)
  (f : EnumOptions -> option A) : option A :=
  match options with
  | Some o => f o
  | None => None
  end.

(** The truth value of an optional boolean field. *)
Definition is_set (flag : option bool) : bool :=
  match flag with
  | Some true => true
  | _ => false
  end.

(** [function toNumber(value: unknown): number | undefined] *)
Definition toNumber (value : JsVal) : JsVal :=
  match value with
  | JNum n => if JsNumber.isNaN n then JUndefined else value
  | JStr s =>
      let trimmed := JsString.trim s in
      let converted := JsString.to_number trimmed in
      if (0 <? String.length trimmed) && negb (JsNumber.isNaN converted)
      then JNum converted
      else JUndefined
  | _ => JUndefined
  end.

Definition passthrough (value : JsVal) : JsVal := value.

Definition lowerCaseIfString (value : JsVal) : JsVal :=
  match value with
  | JStr s => JStr (JsString.toLowerCase s)
  | _ => value
  end.

(** The target of a conversion: ['string' | 'number']. *)
Inductive ToType : Type := TString | TNumber.

Definition ToType_eqb (x y : ToType) : bool :=
  match x, y with
  | TString, TString | TNumber, TNumber => true
  | _, _ => false
  end.

(** [const defaultConverter = (value, toType) => ...] *)
Definition defaultConverter (value : JsVal) (toType : ToType)
  : Completion JsVal :=
  if ToType_eqb toType TString && negb (typeof value =? "string")%string then
    cbind (String_ value) (fun s => Normal (JStr s))
  else if ToType_eqb toType TNumber && negb (typeof value =? "number")%string then
    Normal (toNumber value)
  else Normal value.

(** [const createConverter = (toType, customConverter?) => ...] *)
Definition createConverter (toType : ToType) (customConverter : option Hook)
  : Hook :=
  match customConverter with
  | Some custom => fun value => custom value
  | None => fun value => defaultConverter value toType
  end.

(** [const expectedType = typeof a === 'string' ? 'string' : 'number'],
    the first statement of the predicate. *)
Definition expectedType (a : JsVal) : ToType :=
  if (typeof a =? "string")%string then TString else TNumber.

(** [export function equalFn(options?: EnumOptions)]: the predicate it
    returns, applied to [a] (the key or value of the enum) and [b] (the
    input).  Each application is logged. *)
Definition equalFn (options : option EnumOptions) (a b : JsVal) : Run bool :=
  let normalize : Hook :=
    match field options normalize with
    | Some f => f
    | None => fun v => Normal (passthrough v)
    end in
  let lowerCase :=
    if is_set (field options ignoreCase) then lowerCaseIfString
    else passthrough in
  tell (Compared a b) ;;
  let expectedType := expectedType a in
  a1 <- lift (normalize a) ;;
  b1 <- lift (normalize b) ;;
  let convert : Hook :=
    if is_set (field options convert)
    then createConverter expectedType (field options converter)
    else fun v => Normal (passthrough v) in
  a2 <- lift (convert a1) ;;
  b2 <- lift (convert b1) ;;
  if negb (ToType_eqb expectedType TString) then ret (strict_equal a2 b2)
  else
    let a3 := lowerCase a2 in
    let b3 := lowerCase b2 in
    ret (strict_equal a3 b3).

(** The body of the loop of [isEnumLike], over the keys [for ... in]
    visits. *)
Fixpoint isEnumLike_loop (enumObj : JsVal) (keys : list string) : bool :=
  match keys with
  | [] => true
  | key :: rest =>
      if hasOwn enumObj key then
        if negb (typeof (JStr key) =? "string")%string then false
        else
          let value := Get enumObj key in
          if negb (typeof value =? "string")%string
             && negb (typeof value =? "number")%string
          then false
          else isEnumLike_loop enumObj rest
      else isEnumLike_loop enumObj rest
  end.

(** [export function isEnumLike(enumObj: unknown): enumObj is EnumLike] *)
Definition isEnumLike (enumObj : JsVal) : bool :=
  if negb (truthy enumObj) || negb (typeof enumObj =? "object")%string then false
  else isEnumLike_loop enumObj (for_in_keys enumObj).

Fixpoint validateEnumLike_loop (enumObj : JsVal) (keys : list string)
  : Completion unit :=
  match keys with
  | [] => Normal tt
  | key :: rest =>
      if hasOwn enumObj key then
        if negb (typeof (JStr key) =? "string")%string then
          Throw (Error ("Invalid enum key: " ++ key ++ ". Expected string."))
        else
          let value := Get enumObj key in
          if negb (typeof value =? "string")%string
             && negb (typeof value =? "number")%string
          then
            cbind (ToString value) (fun shown =>
              Throw (Error ("Invalid enum value: " ++ shown
                            ++ ". Expected string or number.")))
          else validateEnumLike_loop enumObj rest
      else validateEnumLike_loop enumObj rest
  end.

(** [export function validateEnumLike(enumObj: unknown): asserts enumObj is EnumLike] *)
Definition validateEnumLike (enumObj : JsVal) : Completion unit :=
  if negb (truthy enumObj) || negb (typeof enumObj =? "object")%string then
    Throw (Error "The enum object is required.")
  else validateEnumLike_loop enumObj (for_in_keys enumObj).

Definition values_not_unique_by_value : Exn :=
  Error "Enum values are not unique. Cannot get value by value.".
Definition keys_not_unique_value_by_key : Exn :=
  Error "Enum keys are not unique. Cannot get value by key.".
Definition keys_not_unique_key_by_key : Exn :=
  Error "Enum keys are not unique. Cannot get key by key.".
Definition values_not_unique_key_by_value : Exn :=
  Error "Enum values are not unique. Cannot get key by value.".

(** [export function enumValueByValue(enumObj, value, options?)] *)
Definition enumValueByValue (enumObj value : JsVal)
  (options : option EnumOptions) : Run JsVal :=
  lift (validateEnumLike enumObj) ;;
  if is_nullish value then ret JUndefined
  else
    let equal := equalFn options in
    foundValues <- Array_filter (fun v => equal v value) (Object_values enumObj) ;;
    if List.length foundValues =? 0 then ret JUndefined
    else if 1 <? List.length foundValues then throw values_not_unique_by_value
    else ret (first_value foundValues).

(** [export function enumValueByKey(enumObj, key, options?)] *)
Definition enumValueByKey (enumObj key : JsVal)
  (options : option EnumOptions) : Run JsVal :=
  lift (validateEnumLike enumObj) ;;
  if is_nullish key then ret JUndefined
  else
    let equalKey := equalFn options in
    foundKeys <- Array_filter (fun k => equalKey (JStr k) key) (Object_keys enumObj) ;;
    if List.length foundKeys =? 0 then ret JUndefined
    else if 1 <? List.length foundKeys then throw keys_not_unique_value_by_key
    else
      match first_key foundKeys with
      | JStr foundKey => ret (Get enumObj foundKey)
      | _ => ret JUndefined
      end.

(** [export function enumKeysByValue(enumObj, value, options?)] *)
Definition enumKeysByValue (enumObj value : JsVal)
  (options : option EnumOptions) : Run (list string) :=
  lift (validateEnumLike enumObj) ;;
  if is_nullish value then ret []
  else
    let equalValue := equalFn options in
    Array_filter (fun key => equalValue (Get enumObj key) value) (Object_keys enumObj).

(** [export function enumKeyByKey(enumObj, key, options?)] *)
Definition enumKeyByKey (enumObj key : JsVal)
  (options : option EnumOptions) : Run JsVal :=
  lift (validateEnumLike enumObj) ;;
  if is_nullish key then ret JUndefined
  else
    let equalKey := equalFn options in
    foundKeys <- Array_filter (fun k => equalKey (JStr k) key) (Object_keys enumObj) ;;
    if List.length foundKeys =? 0 then ret JUndefined
    else if 1 <? List.length foundKeys then throw keys_not_unique_key_by_key
    else ret (first_key foundKeys).

(** [export function enumKeyByValue(enumObj, value, options?)] *)
Definition enumKeyByValue (enumObj value : JsVal)
  (options : option EnumOptions) : Run JsVal :=
  lift (validateEnumLike enumObj) ;;
  if is_nullish value then ret JUndefined
  else
    let equalValue := equalFn options in
    foundKeys <- Array_filter (fun key => equalValue (Get enumObj key) value)
                              (Object_keys enumObj) ;;
    if List.length foundKeys =? 0 then ret JUndefined
    else if 1 <? List.length foundKeys then throw values_not_unique_key_by_value
    else ret (first_key foundKeys).

(** A parameter declared [options: EnumOptions = {}]. *)
Definition or_empty (options : option EnumOptions) : EnumOptions :=
  match options with
  | Some o => o
  | None => no_options
  end.

(** [export function isEnumValue(enumObj, value: unknown, options = {})] *)
Definition isEnumValue (enumObj value : JsVal)
  (options : option EnumOptions) : Run bool :=
  let options := or_empty options in
  lift (validateEnumLike enumObj) ;;
  if is_nullish value then ret false
  else
    let equalValue := equalFn (Some options) in
    Array_some (fun v => equalValue v value) (Object_values enumObj).

(** [export function toEnumValue(enumObj, value: unknown, options = {})] *)
Definition toEnumValue (enumObj value : JsVal)
  (options : option EnumOptions) : Run JsVal :=
  let options := or_empty options in
  lift (validateEnumLike enumObj) ;;
  if is_nullish value then ret JUndefined
  else
    let equal := equalFn (Some options) in
    foundValues <- Array_filter (fun v => equal v value) (Object_values enumObj) ;;
    if List.length foundValues =? 0 then ret JUndefined
    else if 1 <? List.length foundValues then throw values_not_unique_by_value
    else ret (first_value foundValues).

(** [const compareKey = options.convert ? String(key) : key], the step
    [isEnumKey] and [toEnumKey] share. *)
Definition compareKey_of (options : EnumOptions) (key : JsVal)
  : Completion JsVal :=
  if is_set (convert options) then cbind (String_ key) (fun s => Normal (JStr s))
  else Normal key.

(** [export function isEnumKey(enumObj, key: unknown, options = {})] *)
Definition isEnumKey (enumObj key : JsVal)
  (options : option EnumOptions) : Run bool :=
  let options := or_empty options in
  lift (validateEnumLike enumObj) ;;
  if is_nullish key then ret false
  else
    compareKey <- lift (compareKey_of options key) ;;
    if negb (typeof compareKey =? "string")%string then ret false
    else
      let equal := equalFn (Some options) in
      Array_some (fun k => equal (JStr k) compareKey) (Object_keys enumObj).

(** [export function toEnumKey(enumObj, key: unknown, options = {})] *)
Definition toEnumKey (enumObj key : JsVal)
  (options : option EnumOptions) : Run JsVal :=
  let options := or_empty options in
  lift (validateEnumLike enumObj) ;;
  if is_nullish key then ret JUndefined
  else
    compareKey <- lift (compareKey_of options key) ;;
    if negb (typeof compareKey =? "string")%string then ret JUndefined
    else
      let equal := equalFn (Some options) in
      foundKeys <- Array_filter (fun k => equal (JStr k) compareKey)
                                (Object_keys enumObj) ;;
      if List.length foundKeys =? 0 then ret JUndefined
      else if 1 <? List.length foundKeys then throw keys_not_unique_key_by_key
      else ret (first_key foundKeys).

(** [export function toEnumKeys(enumObj, value: unknown, options = {})] *)
Definition toEnumKeys (enumObj value : JsVal)
  (options : option EnumOptions) : Run (list string) :=
  let options := or_empty options in
  lift (validateEnumLike enumObj) ;;
  if is_nullish value then ret []
  else
    let equal := equalFn (Some options) in
    Array_filter (fun key => equal (Get enumObj key) value) (Object_keys enumObj).

(* ===================================================================== *)
(** ** The enums of the test-suite and of the specification *)
(* ===================================================================== *)

(** [enum Color { Red = '#ff0000', Blue = '#0000ff', AlsoBlue = '#0000ff' }] *)
Definition Color : JsVal :=
  object_literal 1
    [("Red", JStr "#ff0000"); ("Blue", JStr "#0000ff"); ("AlsoBlue", JStr "#0000ff")].

(** [enum Priority { Low = 1, Medium = 2, High = 3 }], as the compiler emits
    it: the reverse mapping of a numeric enum comes first, its keys being
    integers. *)
Definition Priority : JsVal :=
  object_literal 2
    [("1", JStr "Low"); ("2", JStr "Medium"); ("3", JStr "High");
     ("Low", JInt 1); ("Medium", JInt 2); ("High", JInt 3)].

(** [const nanEnum = { One: 1 }], and [enum NumericEnum { One = 1 }]. *)
Definition One : JsVal := object_literal 3 [("One", JInt 1)].
Definition NumericOne : JsVal :=
  object_literal 4 [("1", JStr "One"); ("One", JInt 1)].

(** [{ Two: 2 }] and [const doubledEnum = { Two: 2, Four: 4, Six: 6 }]. *)
Definition Two : JsVal := object_literal 5 [("Two", JInt 2)].
Definition doubledEnum : JsVal :=
  object_literal 6 [("Two", JInt 2); ("Four", JInt 4); ("Six", JInt 6)].

Definition with_convert : EnumOptions := mkOptions None None (Some true) None.
Definition with_ignoreCase : EnumOptions := mkOptions None (Some true) None None.

(** [{ A: NaN }]: a valid enum-like object whose one value is [NaN]. *)
Definition NotANumber : JsVal := object_literal 9 [("A", JNum JsNumber.NaN)].

(** [{ A: 'x' }]. *)
Definition Ax : JsVal := object_literal 7 [("A", JStr "x")].

(** [{ A: 'x', B: 'x', C: 1 }]. *)
Definition Mixed : JsVal :=
  object_literal 10 [("A", JStr "x"); ("B", JStr "x"); ("C", JInt 1)].

(** An object with an enumerable string property, a non-enumerable boolean
    one (as [Object.defineProperty] makes them), a symbol-keyed property and
    an inherited one. *)
Definition hidden_flag : JsVal :=
  JObject 11
    [(KString "name", (true, JStr "n"));
     (KString "flag", (false, JBool true));
     (KSymbol 1, (true, JNull))]
    [("inherited", JBool false)]
    (Normal "[object Object]").



(** The converter of the specification, [s => Number(s) * 2]. *)
Definition doubling : Hook :=
  fun s => cbind (Number_ s) (fun n => Normal (JNum (JsNumber.mul n (JsNumber.of_Z 2)))).

(** The converter of the test-suite, which doubles strings only:
    [[
    const customNumConverter = (value: unknown): number | undefined => {
      if (typeof value === 'string') {
        const num = Number(value);
        return isNaN(num) ? undefined : num * 2;
      }
      if (typeof value === 'number') return value;
      return undefined;
    };
    ]] *)
Definition customNumConverter : Hook :=
  fun value =>
    if (typeof value =? "string")%string then
      cbind (Number_ value) (fun num =>
        Normal (if JsNumber.isNaN num then JUndefined
                else JNum (JsNumber.mul num (JsNumber.of_Z 2))))
    else if (typeof value =? "number")%string then Normal value
    else Normal JUndefined.

(** A converter for strings, [v => v.trim()]: on a value that has no
    [trim] method the call raises a TypeError. *)
Definition trimming : Hook :=
  fun v =>
    match v with
    | JStr s => Normal (JStr (JsString.trim s))
    | _ => Throw (TypeError "v.trim is not a function")
    end.

(** A normalizer that prints its argument, [v => String(v)]. *)
Definition stringify : Hook :=
  fun v => cbind (String_ v) (fun s => Normal (JStr s)).

Definition with_converter (c : Hook) : EnumOptions :=
  mkOptions None None (Some true) (Some c).

(** *** The steps of the predicate, one by one

    [compare_as t options a b] is the predicate of [equalFn options] with
    the expected type given from outside: normalize both operands, convert
    both when [convert] is set, fold case when [ignoreCase] is set and [t]
    is ['string'], compare with [===]. *)
Definition normalize_of (options : option EnumOptions) : Hook :=
  match field options normalize with
  | Some f => f
  | None => fun v => Normal v
  end.

Definition convert_of (t : ToType) (options : option EnumOptions) : Hook :=
  if is_set (field options convert)
  then createConverter t (field options converter)
  else fun v => Normal v.

Definition fold_of (options : option EnumOptions) (v : JsVal) : JsVal :=
  if is_set (field options ignoreCase) then lowerCaseIfString v else v.

Definition compare_as (t : ToType) (options : option EnumOptions)
  (a b : JsVal) : Completion bool :=
  cbind (normalize_of options a) (fun a1 =>
  cbind (normalize_of options b) (fun b1 =>
  cbind (convert_of t options a1) (fun a2 =>
  cbind (convert_of t options b1) (fun b2 =>
  Normal (match t with
          | TString => strict_equal (fold_of options a2) (fold_of options b2)
          | TNumber => strict_equal a2 b2
          end))))).

(** The predicate as section 4.2 of the specification words it: the
    expected type is read off the normalized candidate. *)
Definition equalFn_as_specified (options : option EnumOptions)
  (a b : JsVal) : Completion bool :=
  cbind (normalize_of options a) (fun a1 =>
    compare_as (expectedType a1) options a b).

(** The default conversion to ['number'] as section 4.2 of the
    specification words it: a number passes through, except [NaN], which
    fails to [undefined]. *)
Definition number_conversion_as_specified (value : JsVal) : JsVal :=
  toNumber value.

(** An enum value: a string or a number. *)
Definition is_EnumValue (v : JsVal) : bool :=
  (typeof v =? "string")%string || (typeof v =? "number")%string.

(** What the callback of a scan says of an element, when it completes. *)
Definition accepts {A : Type} (callback : A -> Run bool) (x : A) : bool :=
  match completion (callback x) with
  | Normal true => true
  | _ => false
  end.

(** Whether the configured predicate accepts the value under [key]. *)
Definition matches (options : option EnumOptions) (enumObj value : JsVal)
  (key : string) : bool :=
  accepts (fun key => equalFn options (Get enumObj key) value) key.

(** The options with [ignoreCase] replaced. *)
Definition set_ignoreCase (flag : option bool) (options : option EnumOptions)
  : option EnumOptions :=
  Some (mkOptions (field options normalize) flag
                  (field options convert) (field options converter)).

(** [{ normalize: v => String(v), convert: true }] and
    [{ normalize: v => String(v), ignoreCase: true }]. *)
Definition stringify_convert : EnumOptions :=
  mkOptions (Some stringify) None (Some true) None.
Definition stringify_ignoreCase : EnumOptions :=
  mkOptions (Some stringify) (Some true) None None.

(** The values of an enum-like object are pairwise distinct: no two keys
    hold values that [===] equates. *)
Definition distinct_values (enumObj : JsVal) : Prop :=
  forall k1 k2 : string,
    In k1 (Object_keys enumObj) -> In k2 (Object_keys enumObj) -> k1 <> k2 ->
    strict_equal (Get enumObj k1) (Get enumObj k2) = false.

(** A plain numeric enum-like object: every value is a number. *)
Definition numeric_values (enumObj : JsVal) : bool :=
  forallb (fun v => (typeof v =? "number")%string) (Object_values enumObj).

(** The result of a call as a value of the language. *)
Definition bool_result (c : Completion bool) : Completion JsVal :=
  cbind c (fun b => Normal (JBool b)).

(** *** Definitions for the further properties of the lookups *)

(** What a singular lookup makes of the keys a scan found: none is
    [undefined], one is that key, more raise [many]. *)
Definition singular_of_keys (many : Exn) (found : Completion (list string))
  : Completion JsVal :=
  match found with
  | Normal [] => Normal JUndefined
  | Normal [k] => Normal (JStr k)
  | Normal (_ :: _ :: _) => Throw many
  | Throw e => Throw e
  end.

(** Whether [key] is one of the keys [Object.keys] lists. *)
Definition has_key (enumObj : JsVal) (key : string) : bool :=
  existsb (String.eqb key) (Object_keys enumObj).


(** The elements of a list up to the first one that [f] accepts, that one
    included; the whole list when [f] accepts none. *)
Fixpoint upto_first {A : Type} (f : A -> bool) (l : list A) : list A :=
  match l with
  | [] => []
  | x :: rest => if f x then [x] else x :: upto_first f rest
  end.

(** One list of events begins another. *)
Definition log_prefix (l1 l2 : list Event) : Prop :=
  exists rest, l2 = l1 ++ rest.


(** [{ A: Object.create(null) }]: the value has no prototype, so that
    converting it to a string raises a TypeError. *)
Definition bareEnum : JsVal :=
  object_literal 51
    [("A", JObject 52 [] [] (Throw (TypeError "Cannot convert object to primitive value")))].

(** [{}], and [{ Red: 1, red: 2 }]. *)
Definition emptyEnumLike : JsVal := object_literal 12 [].
Definition RedRed : JsVal := object_literal 13 [("Red", JInt 1); ("red", JInt 2)].

(* ===================================================================== *)
(** ** Checks on the scenarios of the specification *)
(* ===================================================================== *)

Example scenario_1 :
  completion (enumKeysByValue Color (JStr "#0000ff") None) = Normal ["Blue"; "AlsoBlue"]
  /\ completion (enumKeyByValue Color (JStr "#0000ff") None)
     = Throw (Error "Enum values are not unique. Cannot get key by value.").
Proof. split; reflexivity. Qed.

(** [toEnumKey] looks its argument up among the keys: on the compiled enum
    the number [2], printed, is the key ["2"] of the reverse mapping. *)
Example scenario_2 :
  completion (toEnumValue Priority (JStr "2") (Some with_convert)) = Normal (JInt 2)
  /\ completion (toEnumKey Priority (JInt 2) (Some with_convert)) = Normal (JStr "2").
Proof. split; reflexivity. Qed.

Example scenario_3 :
  completion (isEnumValue Ax (JStr "X") (Some with_ignoreCase)) = Normal true
  /\ completion (isEnumValue Ax (JStr "X") None) = Normal false.
Proof. split; reflexivity. Qed.

Example scenario_4 :
  validateEnumLike (object_literal 8 [("A", JBool true)])
  = Throw (Error "Invalid enum value: true. Expected string or number.").
Proof. reflexivity. Qed.

(** Expectations of the test-suite on the validators. *)
Example validator_tests :
  isEnumLike (object_literal 40 []) = true
  /\ isEnumLike JUndefined = false
  /\ isEnumLike (JStr "string") = false
  /\ isEnumLike (JBool true) = false
  /\ isEnumLike (JFunction 41 "() => {}") = false
  /\ isEnumLike (object_literal 42 [("A", object_literal 43 [])]) = false
  /\ isEnumLike (object_literal 44 [("A", JArray 45 [] [])]) = false
  /\ isEnumLike (object_literal 46 [("A", JNull)]) = false
  /\ validateEnumLike (JFunction 41 "() => {}") = Throw (Error "The enum object is required.")
  /\ validateEnumLike (object_literal 47 [("A", object_literal 43 []); ("B", JStr "Valid")])
     = Throw (Error "Invalid enum value: [object Object]. Expected string or number.")
  /\ validateEnumLike hidden_flag = Normal tt
  /\ for_in_keys hidden_flag = ["name"; "inherited"].
Proof. repeat split. Qed.

(** Expectations of the test-suite on [equalFn]. *)
Example equalFn_tests :
  completion (equalFn None (JInt 1) (JStr "1")) = Normal false
  /\ completion (equalFn (Some with_ignoreCase) (JStr "Apple") (JStr "APPLE")) = Normal true
  /\ completion (equalFn (Some with_ignoreCase) (JInt 1) (JInt 1)) = Normal true
  /\ completion (equalFn (Some with_convert) (JInt 1) (JStr "1")) = Normal true
  /\ completion (equalFn (Some with_convert) (JStr "1") (JInt 1)) = Normal true
  /\ completion (equalFn (Some with_convert) (JInt 1) (JStr "2")) = Normal false
  /\ completion (equalFn (Some with_convert) (JInt 100) (JStr "100.0")) = Normal true
  /\ completion (equalFn (Some with_convert) (JInt 1000) (JStr "1e3")) = Normal true
  /\ completion (equalFn (Some with_convert) (JNum (JsNumber.Infinity true)) (JStr "-Infinity"))
     = Normal true
  /\ completion (equalFn (Some with_convert) (JInt 1) (JStr "  ")) = Normal false
  /\ completion (equalFn None JUndefined (JStr "value")) = Normal false
  /\ completion (equalFn None (object_literal 30 []) (JStr "value")) = Normal false.
Proof. repeat split. Qed.

(** Expectations of the test-suite on the custom converters. *)
Example converter_tests :
  completion (isEnumValue doubledEnum (JStr "1") (Some (with_converter customNumConverter)))
  = Normal true
  /\ completion (toEnumKeys doubledEnum (JStr "2") (Some (with_converter customNumConverter)))
     = Normal ["Four"]
  /\ completion (isEnumValue Color (JInt 123)
                  (Some (with_converter (fun _ => Normal (JInt 123)))))
     = Normal true
  /\ completion (toEnumValue Color (JInt 123)
                  (Some (with_converter (fun _ => Normal (JInt 123)))))
     = Throw (Error "Enum values are not unique. Cannot get value by value.")
  /\ completion (isEnumValue Color (JStr "Apple")
                  (Some (with_converter (fun _ => Throw (Error "Converter error")))))
     = Throw (Error "Converter error").
Proof. repeat split. Qed.

(* ===================================================================== *)
(** ** The predicate *)
(* ===================================================================== *)

(** One application of the predicate logs one entry and completes as the
    steps of [compare_as] do, at the expected type of the candidate. *)
Lemma equalFn_run (options : option EnumOptions) (a b : JsVal) :
  equalFn options a b
  = mkRun [Compared a b] (compare_as (expectedType a) options a b).
Proof.
  unfold equalFn, compare_as, normalize_of, convert_of, fold_of, passthrough.
  destruct (expectedType a) eqn:Et; cbn [ToType_eqb negb];
    unfold bind, tell, lift, ret; cbn [completion log app].
  all: destruct (match field options normalize with
                 | Some f => f | None => fun v => Normal v end a) as [a1|ea];
    cbn [completion log cbind app]; [|reflexivity].
  all: destruct (match field options normalize with
                 | Some f => f | None => fun v => Normal v end b) as [b1|eb];
    cbn [completion log cbind app]; [|reflexivity].
  all: destruct (is_set (field options convert)); cbn [completion log cbind app].
  all: try (destruct (createConverter _ (field options converter) a1) as [a2|ea2];
            cbn [completion log cbind app]; [|reflexivity];
            destruct (createConverter _ (field options converter) b1) as [b2|eb2];
            cbn [completion log cbind app]; [|reflexivity]).
  all: destruct (is_set (field options ignoreCase)); reflexivity.
Qed.

(* ===================================================================== *)
(** ** Scans *)
(* ===================================================================== *)

Section Scans.

Context {A : Type}.
Variable callback : A -> Run bool.

(** A scan whose callback completes on every element keeps exactly the
    accepted elements, in order. *)
Lemma Array_filter_total (l : list A) :
  (forall x, In x l -> exists r, completion (callback x) = Normal r) ->
  completion (Array_filter callback l) = Normal (filter (accepts callback) l).
Proof.
  induction l as [|x rest IH]; intros Hall; [reflexivity|].
  cbn [Array_filter filter]. unfold bind at 1.
  destruct (Hall x (or_introl eq_refl)) as [r Hr].
  unfold accepts at 1. rewrite Hr. cbn [completion].
  unfold bind. rewrite IH by (intros y Hy; apply Hall; now right).
  cbn [completion ret]. destruct r; reflexivity.
Qed.

Lemma Array_filter_pure (f : A -> bool) (l : list A) :
  (forall x, In x l -> completion (callback x) = Normal (f x)) ->
  completion (Array_filter callback l) = Normal (filter f l).
Proof.
  intros Hall. rewrite Array_filter_total by (intros x Hx; eauto).
  f_equal. apply filter_ext_in. intros x Hx. unfold accepts.
  rewrite (Hall x Hx). now destruct (f x).
Qed.

End Scans.

Lemma Array_filter_ext {A : Type} (c1 c2 : A -> Run bool) (l : list A) :
  (forall x, c1 x = c2 x) -> Array_filter c1 l = Array_filter c2 l.
Proof.
  intros H. induction l as [|x rest IH]; [reflexivity|].
  cbn [Array_filter]. now rewrite H, IH.
Qed.

Lemma Array_some_ext {A : Type} (c1 c2 : A -> Run bool) (l : list A) :
  (forall x, c1 x = c2 x) -> Array_some c1 l = Array_some c2 l.
Proof.
  intros H. induction l as [|x rest IH]; [reflexivity|].
  cbn [Array_some]. now rewrite H, IH.
Qed.

(** In a list without repetition, the elements equal to [k] are [k] alone. *)
Lemma filter_unique {A : Type} (f : A -> bool) (k : A) (l : list A) :
  NoDup l -> In k l -> f k = true ->
  (forall x, In x l -> x <> k -> f x = false) ->
  filter f l = [k].
Proof.
  induction l as [|x rest IH]; intros Hnd Hin Hk Hothers; [contradiction|].
  inversion Hnd as [|? ? Hnotin Hnd']; subst. cbn [filter].
  destruct Hin as [->|Hin].
  - rewrite Hk. f_equal.
    assert (Hnone : forall y, In y rest -> f y = false).
    { intros y Hy. apply Hothers; [now right|]. intros ->. contradiction. }
    clear -Hnone. induction rest as [|y rest IH]; [reflexivity|].
    cbn [filter]. rewrite (Hnone y (or_introl eq_refl)).
    apply IH. intros z Hz. apply Hnone. now right.
  - rewrite (Hothers x (or_introl eq_refl)) by (intros ->; contradiction).
    apply IH; auto. intros y Hy. apply Hothers. now right.
Qed.

(** Two distinct accepted elements make a scan find more than one. *)
Lemma filter_two {A : Type} (f : A -> bool) (x y : A) (l : list A) :
  In x l -> In y l -> x <> y -> f x = true -> f y = true ->
  2 <= List.length (filter f l).
Proof.
  intros Hx Hy Hne Fx Fy.
  assert (Ix : In x (filter f l)) by (apply filter_In; auto).
  assert (Iy : In y (filter f l)) by (apply filter_In; auto).
  destruct (filter f l) as [|a [|b rest]]; cbn [List.length]; try lia.
  - contradiction.
  - destruct Ix as [<-|[]], Iy as [<-|[]]. contradiction.
Qed.

(* ===================================================================== *)
(** ** Properties of the object model and of the validator *)
(* ===================================================================== *)

Lemma assoc_In {A : Type} (k : string) (l : list (string * A)) (a : A) :
  assoc k l = Some a -> In (k, a) l.
Proof.
  induction l as [|[k' a'] rest IH]; cbn [assoc]; [discriminate|].
  destruct (String.eqb_spec k' k) as [->|_].
  - intros [= ->]. now left.
  - intros H. right. auto.
Qed.

Lemma In_assoc {A : Type} (k : string) (l : list (string * A)) :
  In k (map fst l) -> exists a, assoc k l = Some a.
Proof.
  induction l as [|[k' a'] rest IH]; cbn [assoc map fst]; [contradiction|].
  intros [->|Hin].
  - rewrite String.eqb_refl. eauto.
  - destruct (k' =? k)%string; eauto.
Qed.

(** In a list with one entry per key, [assoc] finds each entry. *)
Lemma NoDup_assoc {A : Type} (k : string) (a : A) (l : list (string * A)) :
  NoDup (map fst l) -> In (k, a) l -> assoc k l = Some a.
Proof.
  induction l as [|[k' a'] rest IH]; cbn [assoc map fst]; [contradiction|].
  intros Hnd Hin. inversion Hnd as [|? ? Hnotin Hnd']; subst.
  destruct Hin as [[= -> ->]|Hin].
  - now rewrite String.eqb_refl.
  - destruct (String.eqb_spec k' k) as [->|_]; [|auto].
    exfalso. apply Hnotin. change k with (fst (k, a)). now apply in_map.
Qed.

Lemma Object_entries_own (o : JsVal) (k : string) (v : JsVal) :
  In (k, v) (Object_entries o) -> In (k, (true, v)) (string_keyed (own_props o)).
Proof.
  unfold Object_entries. intros H. apply in_map_iff in H.
  destruct H as [[k' [e v']] [[= -> ->] H]]. apply filter_In in H.
  destruct H as [H He]. cbn in He. now subst e.
Qed.

Lemma Object_keys_own (o : JsVal) (k : string) :
  In k (Object_keys o) -> In k (map fst (string_keyed (own_props o))).
Proof.
  unfold Object_keys. intros H. apply in_map_iff in H.
  destruct H as [[k' v] [<- H]]. apply Object_entries_own in H.
  change (fst (k', v)) with (fst (k', (true, v))). now apply in_map.
Qed.

Lemma Object_keys_hasOwn (o : JsVal) (k : string) :
  In k (Object_keys o) -> hasOwn o k = true.
Proof.
  intros H. apply Object_keys_own, In_assoc in H. destruct H as [a Ha].
  unfold hasOwn. now rewrite Ha.
Qed.

(** The keys of a well-formed object are distinct. *)
Lemma Object_keys_NoDup (o : JsVal) : well_formed o -> NoDup (Object_keys o).
Proof.
  unfold well_formed, Object_keys, Object_entries.
  generalize (string_keyed (own_props o)) as l.
  induction l as [|[k [e v]] rest IH]; cbn [map fst filter snd]; intros Hnd.
  - constructor.
  - inversion Hnd as [|? ? Hnotin Hnd']; subst.
    destruct e; cbn [map fst snd]; [|auto].
    constructor; [|auto]. intros Hin. apply Hnotin.
    apply in_map_iff in Hin. destruct Hin as [[k' v'] [Hk Hin]].
    cbn in Hk. subst k'. apply in_map_iff in Hin.
    destruct Hin as [[k'' [e' v'']] [[= -> ->] Hin]].
    apply filter_In in Hin. destruct Hin as [Hin _].
    change k with (fst (k, (e', v'))). now apply in_map.
Qed.

(** Whether a value is an object: [typeof] says so and it is not [null]. *)
Lemma object_cases (v : JsVal) :
  negb (truthy v) || negb (typeof v =? "object")%string = false <->
  (typeof v = "object" /\ v <> JNull).
Proof.
  destruct v as [| |b|n|s|z|i d|r src|r own inh pr|r es ps]; cbn;
    try (split; [discriminate | intros [H _]; discriminate]).
  - split; [discriminate | intros [_ H]; now elim H].
  - destruct b; split; try discriminate; intros [H _]; discriminate.
  - destruct n as [|neg|m e]; cbn; try destruct (m =? 0)%Z; cbn;
      split; try discriminate; intros [H _]; discriminate.
  - destruct (s =? "")%string; split; try discriminate; intros [H _]; discriminate.
  - destruct (z =? 0)%Z; split; try discriminate; intros [H _]; discriminate.
  - split; [intros _; split; [reflexivity | discriminate] | reflexivity].
  - split; [intros _; split; [reflexivity | discriminate] | reflexivity].
Qed.

Lemma cbind_throw {A B : Type} (c : Completion A) (e : A -> Exn) :
  throws (cbind c (fun a => Throw (e a)) : Completion B).
Proof. destruct c as [a|x]; cbn; unfold throws; eauto. Qed.

Lemma isEnumLike_loop_accepts (o : JsVal) (keys : list string) :
  isEnumLike_loop o keys = true -> validateEnumLike_loop o keys = Normal tt.
Proof.
  induction keys as [|key rest IH]; cbn [isEnumLike_loop validateEnumLike_loop];
    [reflexivity|].
  destruct (hasOwn o key); [|exact IH].
  cbn [typeof String.eqb negb].
  destruct (negb (typeof (Get o key) =? "string")%string
            && negb (typeof (Get o key) =? "number")%string);
    [discriminate | exact IH].
Qed.

Lemma isEnumLike_loop_rejects (o : JsVal) (keys : list string) :
  isEnumLike_loop o keys = false -> throws (validateEnumLike_loop o keys).
Proof.
  induction keys as [|key rest IH]; cbn [isEnumLike_loop validateEnumLike_loop];
    [discriminate|].
  destruct (hasOwn o key); [|exact IH].
  rewrite String.eqb_refl. cbn [negb].
  destruct (negb (typeof (Get o key) =? "string")%string
            && negb (typeof (Get o key) =? "number")%string);
    [intros _; apply cbind_throw | exact IH].
Qed.

(** The two validators make the same check. *)
Lemma isEnumLike_validateEnumLike (v : JsVal) :
  (isEnumLike v = true -> validateEnumLike v = Normal tt)
  /\ (isEnumLike v = false -> throws (validateEnumLike v)).
Proof.
  unfold isEnumLike, validateEnumLike.
  destruct (negb (truthy v) || negb (typeof v =? "object")%string).
  - split; [discriminate | intros _; unfold throws; eauto].
  - split; [apply isEnumLike_loop_accepts | apply isEnumLike_loop_rejects].
Qed.

(** Whether every own string-keyed property of [o] holds a string or a
    number, the non-enumerable ones included. *)
Lemma own_values_loop (o : JsVal) (keys : list string) :
  forallb (fun p => is_EnumValue (snd (snd p))) (string_keyed (own_props o)) = true ->
  isEnumLike_loop o keys = true.
Proof.
  intros Hall. induction keys as [|key rest IH]; cbn [isEnumLike_loop];
    [reflexivity|].
  unfold hasOwn, Get.
  destruct (assoc key (string_keyed (own_props o))) as [[e v]|] eqn:Hk; [|exact IH].
  rewrite String.eqb_refl. cbn [negb].
  apply assoc_In in Hk. rewrite forallb_forall in Hall.
  specialize (Hall _ Hk). cbn [snd] in Hall. unfold is_EnumValue in Hall.
  destruct (typeof v =? "string")%string, (typeof v =? "number")%string;
    cbn in Hall |- *; try discriminate; exact IH.
Qed.

(** What a validated object holds under each of its keys. *)
Lemma validated_values (o : JsVal) (k : string) :
  validateEnumLike o = Normal tt -> In k (Object_keys o) ->
  is_EnumValue (Get o k) = true.
Proof.
  intros Hv Hk.
  destruct (isEnumLike o) eqn:Hi.
  2:{ apply isEnumLike_validateEnumLike in Hi. destruct Hi as [e He].
      rewrite He in Hv. discriminate. }
  unfold isEnumLike in Hi.
  destruct (negb (truthy o) || negb (typeof o =? "object")%string); [discriminate|].
  assert (Hin : In k (for_in_keys o)) by (unfold for_in_keys; apply in_or_app; now left).
  apply Object_keys_hasOwn in Hk.
  revert Hi Hin. generalize (for_in_keys o) as keys.
  induction keys as [|key rest IH]; cbn [isEnumLike_loop]; [contradiction|].
  intros Hi [->|Hin].
  - rewrite Hk in Hi. rewrite String.eqb_refl in Hi. cbn [negb] in Hi.
    unfold is_EnumValue.
    destruct (typeof (Get o k) =? "string")%string,
             (typeof (Get o k) =? "number")%string; cbn in Hi |- *;
      try reflexivity; discriminate.
  - apply IH; [|exact Hin].
    destruct (hasOwn o key); [|exact Hi].
    rewrite String.eqb_refl in Hi. cbn [negb] in Hi.
    destruct (negb (typeof (Get o key) =? "string")%string
              && negb (typeof (Get o key) =? "number")%string);
      [discriminate | exact Hi].
Qed.

Lemma is_EnumValue_not_nullish (v : JsVal) :
  is_EnumValue v = true -> is_nullish v = false.
Proof. destruct v; cbn; congruence. Qed.



Lemma isEnumLike_loop_complete (o : JsVal) (keys : list string) :
  (forall k, In k keys -> hasOwn o k = true -> is_EnumValue (Get o k) = true) ->
  isEnumLike_loop o keys = true.
Proof.
  induction keys as [|key rest IH]; intros Hall; cbn [isEnumLike_loop];
    [reflexivity|].
  assert (Hrest : isEnumLike_loop o rest = true)
    by (apply IH; intros k Hk; apply Hall; now right).
  destruct (hasOwn o key) eqn:Hown; [|exact Hrest].
  rewrite String.eqb_refl. cbn [negb].
  specialize (Hall key (or_introl eq_refl) Hown). unfold is_EnumValue in Hall.
  destruct (typeof (Get o key) =? "string")%string,
           (typeof (Get o key) =? "number")%string;
    cbn in Hall |- *; try discriminate; exact Hrest.
Qed.

(** What a well-formed object holds under the key of an entry. *)
Lemma Get_entry (o : JsVal) (k : string) (v : JsVal) :
  well_formed o -> In (k, v) (Object_entries o) -> Get o k = v.
Proof.
  intros Hwf Hin. apply Object_entries_own in Hin.
  unfold Get. now rewrite (NoDup_assoc _ _ _ Hwf Hin).
Qed.

Lemma for_in_own (o : JsVal) (k : string) :
  In k (for_in_keys o) -> hasOwn o k = true -> In k (Object_keys o).
Proof.
  unfold for_in_keys. intros Hin Hown. apply in_app_or in Hin.
  destruct Hin as [Hin|Hin]; [exact Hin|].
  apply filter_In in Hin. destruct Hin as [_ Hnot].
  rewrite Hown in Hnot. discriminate.
Qed.

(* ===================================================================== *)
(** ** The structural validator *)
(* ===================================================================== *)

(** C7. Validator totality: on [null] and on every value that is not an
    object, [isEnumLike] returns [false] and [validateEnumLike] throws
    ["The enum object is required."]; on every object whose own string-keyed
    properties all hold strings or numbers, [isEnumLike] returns [true] and
    [validateEnumLike] does not throw (it is enough that the enumerable ones
    do); and on every input [isEnumLike] returns [true] exactly when
    [validateEnumLike] does not throw. *)
Theorem validator_totality :
  (forall v : JsVal,
      v = JNull \/ typeof v <> "object" ->
      isEnumLike v = false
      /\ validateEnumLike v = Throw (Error "The enum object is required."))
  /\ (forall o : JsVal,
      typeof o = "object" -> o <> JNull ->
      forallb (fun p => is_EnumValue (snd (snd p))) (string_keyed (own_props o)) = true ->
      isEnumLike o = true /\ validateEnumLike o = Normal tt)
  /\ (forall o : JsVal,
      typeof o = "object" -> o <> JNull -> well_formed o ->
      forallb is_EnumValue (Object_values o) = true ->
      isEnumLike o = true /\ validateEnumLike o = Normal tt)
  /\ (forall v : JsVal,
      isEnumLike v = true <-> ~ throws (validateEnumLike v)).
Proof.
  split; [|split; [|split]].
  - intros v Hv. unfold isEnumLike, validateEnumLike.
    destruct (negb (truthy v) || negb (typeof v =? "object")%string) eqn:Hg;
      [now split|].
    apply object_cases in Hg. destruct Hg as [Ht Hn].
    destruct Hv as [->|Hv]; [now elim Hn | now elim Hv].
  - intros o Ht Hn Hall.
    assert (Hi : isEnumLike o = true).
    { unfold isEnumLike.
      destruct (negb (truthy o) || negb (typeof o =? "object")%string) eqn:Hg.
      - assert (Hobj : typeof o = "object" /\ o <> JNull) by now split.
        apply object_cases in Hobj. congruence.
      - now apply own_values_loop. }
    split; [exact Hi | now apply isEnumLike_validateEnumLike].
  - intros o Ht Hn Hwf Hall.
    assert (Hi : isEnumLike o = true).
    { unfold isEnumLike.
      destruct (negb (truthy o) || negb (typeof o =? "object")%string) eqn:Hg.
      - assert (Hobj : typeof o = "object" /\ o <> JNull) by now split.
        apply object_cases in Hobj. congruence.
      - apply isEnumLike_loop_complete. intros k Hk Hown.
        pose proof (for_in_own o k Hk Hown) as Hkey.
        unfold Object_keys in Hkey. apply in_map_iff in Hkey.
        destruct Hkey as [[k' v] [Hfst Hin]]. cbn in Hfst. subst k'.
        rewrite (Get_entry o k v Hwf Hin).
        rewrite forallb_forall in Hall. apply Hall.
        unfold Object_values. change v with (snd (k, v)). now apply in_map. }
    split; [exact Hi | now apply isEnumLike_validateEnumLike].
  - intros v. destruct (isEnumLike_validateEnumLike v) as [Hyes Hno]. split.
    + intros Hi [e He]. rewrite (Hyes Hi) in He. discriminate.
    + intros Hnot. destruct (isEnumLike v); [reflexivity|].
      elim Hnot. now apply Hno.
Qed.

Lemma validator_totality_witness :
  (isEnumLike JNull = false
   /\ validateEnumLike JNull = Throw (Error "The enum object is required."))
  /\ (isEnumLike (JInt 123) = false
      /\ validateEnumLike (JInt 123) = Throw (Error "The enum object is required."))
  /\ (isEnumLike Color = true /\ validateEnumLike Color = Normal tt)
  /\ (isEnumLike hidden_flag = true /\ validateEnumLike hidden_flag = Normal tt)
  /\ (isEnumLike Mixed = true <-> ~ throws (validateEnumLike Mixed)).
Proof.
  destruct validator_totality as [Hnot [Hobj [Henum Hsame]]].
  split; [|split; [|split; [|split]]].
  - apply (Hnot JNull). left. reflexivity.
  - apply (Hnot (JInt 123)). right. discriminate.
  - apply (Hobj Color); [reflexivity | discriminate | reflexivity].
  - apply (Henum hidden_flag); [reflexivity | discriminate | | reflexivity].
    unfold well_formed. simpl. repeat constructor; simpl; intuition discriminate.
  - apply (Hsame Mixed).
Defined.






(** An array is scanned under its index strings. *)
Example array_keys :
  Object_keys (JArray 20 [Some (JStr "a"); Some (JInt 7); None; Some (JStr "b")] [])
  = ["0"; "1"; "3"]
  /\ completion (enumKeyByValue (JArray 20 [Some (JStr "a"); Some (JInt 7)] []) (JInt 7) None)
     = Normal (JStr "1").
Proof. split; reflexivity. Qed.

(* ===================================================================== *)
(** ** The equality engine *)
(* ===================================================================== *)

Lemma completion_bind {A B : Type} (m : Run A) (k : A -> Run B) :
  completion (bind m k)
  = match completion m with
    | Normal a => completion (k a)
    | Throw e => Throw e
    end.
Proof. unfold bind. now destruct (completion m). Qed.

Lemma bind_lift_Normal {A B : Type} (a : A) (k : A -> Run B) :
  bind (lift (Normal a)) k = k a.
Proof. unfold bind, lift. cbn. now destruct (k a). Qed.

Lemma bind_lift_Throw {A B : Type} (e : Exn) (k : A -> Run B) :
  bind (lift (Throw e)) k = mkRun [] (Throw e).
Proof. reflexivity. Qed.

(** With no options the predicate is [===]. *)
Lemma equalFn_default (a b : JsVal) :
  completion (equalFn None a b) = Normal (strict_equal a b).
Proof. rewrite equalFn_run. cbn. now destruct (expectedType a). Qed.

Lemma expectedType_string (a : JsVal) :
  expectedType a = TString <-> typeof a = "string".
Proof.
  unfold expectedType. destruct (String.eqb_spec (typeof a) "string") as [H|H];
    split; congruence.
Qed.

Lemma expectedType_number (a : JsVal) :
  expectedType a = TNumber <-> typeof a <> "string".
Proof.
  unfold expectedType. destruct (String.eqb_spec (typeof a) "string") as [H|H];
    split; congruence.
Qed.

(** C2 (as amended). The predicate takes the expected type from the
    candidate [a] as it is given, before [normalize] is applied: the type is
    ['string'] exactly when [a] is a string and ['number'] otherwise, and the
    comparison then runs at that type.  Neither the normalized candidate nor
    the input [b] has a part in it. *)
Theorem expected_type_of_candidate (options : option EnumOptions) (a b : JsVal) :
  equalFn options a b
  = mkRun [Compared a b] (compare_as (expectedType a) options a b)
  /\ (expectedType a = TString <-> typeof a = "string")
  /\ (expectedType a = TNumber <-> typeof a <> "string").
Proof.
  split; [apply equalFn_run|].
  split; [apply expectedType_string | apply expectedType_number].
Qed.

(** C2 fails as stated: with [normalize: v => String(v)] the candidate [1]
    is normalized to the string ["1"], yet the comparison runs at type
    ['number'].  Under [convert] the input ["01"] therefore matches [1],
    where a comparison of strings would tell ["1"] from ["01"]; under
    [ignoreCase] the input ["infinity"] does not match [Infinity], where a
    comparison of strings would fold the case. *)
Lemma expected_type_counterexample :
  normalize_of (Some stringify_convert) (JInt 1) = Normal (JStr "1")
  /\ typeof (JStr "1") = "string"
  /\ expectedType (JInt 1) = TNumber
  /\ completion (equalFn (Some stringify_convert) (JInt 1) (JStr "01")) = Normal true
  /\ equalFn_as_specified (Some stringify_convert) (JInt 1) (JStr "01") = Normal false
  /\ completion (equalFn (Some stringify_ignoreCase)
                         (JNum (JsNumber.Infinity false)) (JStr "infinity"))
     = Normal false
  /\ equalFn_as_specified (Some stringify_ignoreCase)
                          (JNum (JsNumber.Infinity false)) (JStr "infinity")
     = Normal true.
Proof. repeat split. Qed.

(** C8. Case folding applies only at the expected type ['string']: under
    [{ignoreCase: true}] the predicate rejects [(1, "1")] and accepts
    [("A", "a")]; and when the candidate is not a string, whatever the
    options, the operands are compared right after conversion, so that
    setting or clearing [ignoreCase] changes nothing. *)
Theorem case_folding_only_for_strings :
  completion (equalFn (Some with_ignoreCase) (JInt 1) (JStr "1")) = Normal false
  /\ completion (equalFn (Some with_ignoreCase) (JStr "A") (JStr "a")) = Normal true
  /\ (forall (options : option EnumOptions) (a b : JsVal),
        typeof a <> "string" ->
        completion (equalFn options a b)
        = cbind (normalize_of options a) (fun a1 =>
          cbind (normalize_of options b) (fun b1 =>
          cbind (convert_of TNumber options a1) (fun a2 =>
          cbind (convert_of TNumber options b1) (fun b2 =>
          Normal (strict_equal a2 b2))))))
  /\ (forall (options : option EnumOptions) (flag : option bool) (a b : JsVal),
        typeof a <> "string" ->
        equalFn (set_ignoreCase flag options) a b = equalFn options a b)
  /\ (forall (options : option EnumOptions) (a b : JsVal),
        typeof a = "string" ->
        completion (equalFn options a b)
        = cbind (normalize_of options a) (fun a1 =>
          cbind (normalize_of options b) (fun b1 =>
          cbind (convert_of TString options a1) (fun a2 =>
          cbind (convert_of TString options b1) (fun b2 =>
          Normal (if is_set (field options ignoreCase)
                  then strict_equal (lowerCaseIfString a2) (lowerCaseIfString b2)
                  else strict_equal a2 b2)))))).
Proof.
  split; [reflexivity|]. split; [reflexivity|]. split; [|split].
  - intros options a b Ha. rewrite equalFn_run.
    apply expectedType_number in Ha. now rewrite Ha.
  - intros options flag a b Ha. rewrite !equalFn_run.
    apply expectedType_number in Ha. rewrite Ha.
    destruct options as [[n i c cv]|]; reflexivity.
  - intros options a b Ha. rewrite equalFn_run.
    apply expectedType_string in Ha. rewrite Ha.
    cbn [completion]. unfold compare_as, fold_of.
    destruct (normalize_of options a) as [a1|]; [|reflexivity].
    destruct (normalize_of options b) as [b1|]; [|reflexivity].
    cbn [cbind].
    destruct (convert_of TString options a1) as [a2|]; [|reflexivity].
    destruct (convert_of TString options b1) as [b2|]; [|reflexivity].
    cbn [cbind]. now destruct (is_set (field options ignoreCase)).
Qed.

Lemma case_folding_only_for_strings_witness :
  equalFn (set_ignoreCase (Some true) (Some with_convert)) (JInt 7) (JStr "7")
  = equalFn (Some with_convert) (JInt 7) (JStr "7")
  /\ completion (equalFn (Some with_ignoreCase) (JInt 7) (JStr "7")) = Normal false
  /\ completion (equalFn (Some with_ignoreCase) (JStr "Red") (JStr "RED")) = Normal true.
Proof.
  destruct case_folding_only_for_strings as [_ [_ [Hnum [Hflag Hstr]]]].
  split; [|split].
  - apply (Hflag (Some with_convert) (Some true) (JInt 7) (JStr "7")). discriminate.
  - rewrite (Hnum (Some with_ignoreCase) (JInt 7) (JStr "7")); [reflexivity | discriminate].
  - rewrite (Hstr (Some with_ignoreCase) (JStr "Red") (JStr "RED")); reflexivity.
Defined.

(* ===================================================================== *)
(** ** Conversion *)
(* ===================================================================== *)

Lemma number_never_equals_NaN (n : JsNumber.number) :
  JsNumber.eqb n JsNumber.NaN = false.
Proof. now destruct n. Qed.

(** The default conversion of the input, seen from a candidate that is a
    number. *)
Lemma equalFn_convert_number (n : JsNumber.number) (b : JsVal) :
  completion (equalFn (Some with_convert) (JNum n) b)
  = cbind (defaultConverter b TNumber) (fun b2 => Normal (strict_equal (JNum n) b2)).
Proof. rewrite equalFn_run. reflexivity. Qed.

Lemma values_are_numbers (enumObj v : JsVal) :
  numeric_values enumObj = true -> In v (Object_values enumObj) ->
  exists n, v = JNum n.
Proof.
  unfold numeric_values. rewrite forallb_forall. intros Hall Hin.
  specialize (Hall v Hin). destruct v; try discriminate. eauto.
Qed.

(** A scan that accepts nothing returns [undefined]. *)
Lemma toEnumValue_no_match (enumObj value : JsVal) (options : option EnumOptions) :
  validateEnumLike enumObj = Normal tt ->
  is_nullish value = false ->
  (forall v, In v (Object_values enumObj) ->
             completion (equalFn (Some (or_empty options)) v value) = Normal false) ->
  completion (toEnumValue enumObj value options) = Normal JUndefined.
Proof.
  intros Hv Hn Hnone. unfold toEnumValue.
  rewrite completion_bind. cbn [lift completion]. rewrite Hv, Hn.
  rewrite completion_bind.
  rewrite (Array_filter_pure _ (fun _ => false)) by exact Hnone.
  assert (Hnil : forall l : list JsVal, filter (fun _ => false) l = []).
  { induction l; [reflexivity | assumption]. }
  now rewrite Hnil.
Qed.

(** C3 (as amended). With [convert] set and no custom converter, the
    default conversion to ['number'] passes every number through unchanged,
    [NaN] included (which then equals nothing), and reads a string by
    trimming it and parsing it as a number, giving [undefined] when the
    trimmed string is empty or does not parse.  Consequently, for [{One: 1}]
    (and for the numeric enum [One = 1] as compiled), [toEnumValue] returns
    [1] on ["1"], and [undefined] on ["abc"] and on [NaN]; on every valid
    enum-like object whose values are all numbers it returns [undefined] on
    ["abc"] and on [NaN], and on ["1"] the value equal to [1] when there is
    one such value. *)
Theorem default_number_conversion :
  (forall n : JsNumber.number,
      createConverter TNumber None (JNum n) = Normal (JNum n))
  /\ (forall s : string,
      createConverter TNumber None (JStr s)
      = Normal (let trimmed := JsString.trim s in
                let converted := JsString.to_number trimmed in
                if (0 <? String.length trimmed) && negb (JsNumber.isNaN converted)
                then JNum converted else JUndefined))
  /\ completion (toEnumValue One (JStr "1") (Some with_convert)) = Normal (JInt 1)
  /\ completion (toEnumValue One (JStr "abc") (Some with_convert)) = Normal JUndefined
  /\ completion (toEnumValue One (JNum JsNumber.NaN) (Some with_convert)) = Normal JUndefined
  /\ completion (toEnumValue NumericOne (JStr "1") (Some with_convert)) = Normal (JInt 1)
  /\ completion (toEnumValue NumericOne (JStr "abc") (Some with_convert)) = Normal JUndefined
  /\ completion (toEnumValue NumericOne (JNum JsNumber.NaN) (Some with_convert)) = Normal JUndefined
  /\ (forall enumObj : JsVal,
        validateEnumLike enumObj = Normal tt ->
        numeric_values enumObj = true ->
        completion (toEnumValue enumObj (JStr "abc") (Some with_convert)) = Normal JUndefined
        /\ completion (toEnumValue enumObj (JNum JsNumber.NaN) (Some with_convert))
           = Normal JUndefined)
  /\ (forall enumObj : JsVal,
        validateEnumLike enumObj = Normal tt ->
        numeric_values enumObj = true ->
        List.length (filter (fun v => strict_equal v (JInt 1)) (Object_values enumObj)) = 1 ->
        exists v : JsVal,
          completion (toEnumValue enumObj (JStr "1") (Some with_convert)) = Normal v
          /\ strict_equal v (JInt 1) = true).
Proof.
  split; [reflexivity|]. split; [reflexivity|].
  do 6 (split; [reflexivity|]).
  split.
  2:{ intros enumObj Hv Hnum Hone. unfold toEnumValue.
      rewrite Hv, bind_lift_Normal. cbn [is_nullish or_empty].
      rewrite completion_bind.
      rewrite (Array_filter_pure _ (fun v => strict_equal v (JInt 1))).
      2:{ intros v Hin. destruct (values_are_numbers _ _ Hnum Hin) as [n ->].
          rewrite equalFn_convert_number. reflexivity. }
      destruct (filter (fun v => strict_equal v (JInt 1)) (Object_values enumObj))
        as [|v [|w rest]] eqn:Hf; try discriminate.
      exists v. split; [reflexivity|].
      assert (Hin : In v (filter (fun v => strict_equal v (JInt 1))
                                 (Object_values enumObj)))
        by (rewrite Hf; now left).
      apply filter_In in Hin. apply Hin. }
  intros enumObj Hv Hnum. split.
  - apply toEnumValue_no_match; [exact Hv | reflexivity|].
    intros v Hin. destruct (values_are_numbers _ _ Hnum Hin) as [n ->].
    cbn [or_empty]. rewrite equalFn_convert_number. reflexivity.
  - apply toEnumValue_no_match; [exact Hv | reflexivity|].
    intros v Hin. destruct (values_are_numbers _ _ Hnum Hin) as [n ->].
    cbn [or_empty]. rewrite equalFn_convert_number. cbn.
    now rewrite number_never_equals_NaN.
Qed.

Lemma default_number_conversion_witness :
  (completion (toEnumValue doubledEnum (JStr "abc") (Some with_convert)) = Normal JUndefined
   /\ completion (toEnumValue doubledEnum (JNum JsNumber.NaN) (Some with_convert))
      = Normal JUndefined)
  /\ (exists v : JsVal,
        completion (toEnumValue One (JStr "1") (Some with_convert)) = Normal v
        /\ strict_equal v (JInt 1) = true).
Proof.
  destruct default_number_conversion
    as [_ [_ [_ [_ [_ [_ [_ [_ [Hnone Hone]]]]]]]]].
  split.
  - apply (Hnone doubledEnum); reflexivity.
  - apply (Hone One); reflexivity.
Defined.

(** C3 fails as stated: the default conversion does not turn [NaN] into
    [undefined].  [defaultConverter] hands [toNumber] only the values that
    are not numbers, so [NaN] passes through as [NaN]; the test of [toNumber]
    for [NaN] is never reached with a number.  The difference shows on
    [{A: NaN}]: were [NaN] converted to [undefined], it would equal the
    converted ["abc"]; as it is, the lookup finds nothing. *)
Lemma default_number_conversion_counterexample :
  createConverter TNumber None (JNum JsNumber.NaN) = Normal (JNum JsNumber.NaN)
  /\ createConverter TNumber None (JNum JsNumber.NaN) <> Normal JUndefined
  /\ number_conversion_as_specified (JNum JsNumber.NaN) = JUndefined
  /\ strict_equal (number_conversion_as_specified (JNum JsNumber.NaN))
                  (number_conversion_as_specified (JStr "abc")) = true
  /\ completion (equalFn (Some with_convert) (JNum JsNumber.NaN) (JStr "abc")) = Normal false
  /\ completion (toEnumValue NotANumber (JStr "abc") (Some with_convert)) = Normal JUndefined.
Proof. repeat split. discriminate. Qed.

(** C1 (as amended). With the converter [s => Number(s) * 2] the call
    [toEnumValue({Two: 2}, '1', {convert: true, converter})] returns
    [undefined]: the converter is applied to both operands, so the enum value
    [2] becomes [4] while the input ['1'] becomes [2].  With the converter of
    the test-suite, which doubles strings and returns numbers as they are,
    the call returns [2]. *)
Theorem custom_converter_on_both_operands :
  doubling (JInt 2) = Normal (JInt 4)
  /\ doubling (JStr "1") = Normal (JInt 2)
  /\ equalFn (Some (with_converter doubling)) (JInt 2) (JStr "1")
     = mkRun [Compared (JInt 2) (JStr "1")] (Normal false)
  /\ toEnumValue Two (JStr "1") (Some (with_converter doubling))
     = mkRun [Compared (JInt 2) (JStr "1")] (Normal JUndefined)
  /\ completion (toEnumValue Two (JStr "1") (Some (with_converter customNumConverter)))
     = Normal (JInt 2)
  /\ completion (toEnumValue doubledEnum (JStr "1") (Some (with_converter customNumConverter)))
     = Normal (JInt 2)
  /\ (forall (c : Hook) (a b : JsVal),
        completion (equalFn (Some (with_converter c)) a b)
        = cbind (c a) (fun a2 => cbind (c b) (fun b2 => Normal (strict_equal a2 b2)))).
Proof.
  do 6 (split; [reflexivity|]).
  intros c a b. rewrite equalFn_run. cbn.
  destruct (c a) as [a2|]; [|reflexivity]. cbn.
  destruct (c b) as [b2|]; [|reflexivity]. cbn.
  now destruct (expectedType a).
Qed.

(** C1 fails as stated: the call returns [undefined], not [2]. *)
Lemma custom_converter_counterexample :
  completion (toEnumValue Two (JStr "1") (Some (with_converter doubling)))
  = Normal JUndefined
  /\ completion (toEnumValue Two (JStr "1") (Some (with_converter doubling)))
     <> Normal (JInt 2).
Proof. split; [reflexivity | discriminate]. Qed.

(* ===================================================================== *)
(** ** Lookups and wrappers *)
(* ===================================================================== *)

(** C6 (as amended). On a valid enum-like object, whatever the options, a
    [null] or [undefined] search term makes the four base lookups and
    [toEnumValue], [toEnumKey] return [undefined], makes [enumKeysByValue]
    and [toEnumKeys] return the empty list, and makes [isEnumValue] and
    [isEnumKey] return [false]; none of them throws, and none invokes the
    predicate: the log of the run is empty, and the run is the same whatever
    the [normalize] and the [converter] of the options would do. *)
Theorem null_safety (enumObj term : JsVal) (options : option EnumOptions) :
  validateEnumLike enumObj = Normal tt ->
  is_nullish term = true ->
  enumValueByValue enumObj term options = mkRun [] (Normal JUndefined)
  /\ enumValueByKey enumObj term options = mkRun [] (Normal JUndefined)
  /\ enumKeyByKey enumObj term options = mkRun [] (Normal JUndefined)
  /\ enumKeyByValue enumObj term options = mkRun [] (Normal JUndefined)
  /\ enumKeysByValue enumObj term options = mkRun [] (Normal [])
  /\ toEnumValue enumObj term options = mkRun [] (Normal JUndefined)
  /\ toEnumKey enumObj term options = mkRun [] (Normal JUndefined)
  /\ toEnumKeys enumObj term options = mkRun [] (Normal [])
  /\ isEnumValue enumObj term options = mkRun [] (Normal false)
  /\ isEnumKey enumObj term options = mkRun [] (Normal false).
Proof.
  intros Hv Hn.
  unfold enumValueByValue, enumValueByKey, enumKeyByKey, enumKeyByValue,
    enumKeysByValue, toEnumValue, toEnumKey, toEnumKeys, isEnumValue, isEnumKey.
  rewrite Hv, !bind_lift_Normal, Hn.
  repeat split.
Qed.

Lemma null_safety_witness :
  enumValueByValue Color JNull (Some (with_converter trimming))
  = mkRun [] (Normal JUndefined)
  /\ enumKeysByValue Color JUndefined (Some (with_converter trimming))
     = mkRun [] (Normal [])
  /\ isEnumKey Color JUndefined (Some with_convert) = mkRun [] (Normal false).
Proof.
  destruct (null_safety Color JNull (Some (with_converter trimming)) eq_refl eq_refl)
    as [H1 _].
  destruct (null_safety Color JUndefined (Some (with_converter trimming)) eq_refl eq_refl)
    as [_ [_ [_ [_ [H5 _]]]]].
  destruct (null_safety Color JUndefined (Some with_convert) eq_refl eq_refl)
    as [_ [_ [_ [_ [_ [_ [_ [_ [_ H10]]]]]]]]].
  split; [exact H1 | split; [exact H5 | exact H10]].
Defined.

(** C6 fails as stated for the two boolean wrappers: on a [null] search term
    [isEnumValue] and [isEnumKey] return [false], which is not [undefined]. *)
Lemma null_safety_counterexample :
  bool_result (completion (isEnumValue Ax JNull None)) = Normal (JBool false)
  /\ bool_result (completion (isEnumKey Ax JNull None)) = Normal (JBool false)
  /\ bool_result (completion (isEnumValue Ax JNull None)) <> Normal JUndefined
  /\ bool_result (completion (isEnumKey Ax JNull None)) <> Normal JUndefined
  /\ strict_equal (JBool false) JUndefined = false.
Proof. repeat split; discriminate. Qed.

(** A wrapper called without options runs the predicate of no options. *)
Lemma equalFn_or_empty (options : option EnumOptions) (a b : JsVal) :
  equalFn (Some (or_empty options)) a b = equalFn options a b.
Proof. rewrite !equalFn_run. now destruct options. Qed.

Lemma compareKey_of_string (options : EnumOptions) (s : string) :
  compareKey_of options (JStr s) = Normal (JStr s).
Proof. unfold compareKey_of. now destruct (is_set (convert options)). Qed.

(** C9. The wrappers agree with the base lookups: [toEnumValue] completes
    as [enumValueByValue] does (the same value, the same [undefined], the
    same exception) and [toEnumKeys] returns the list [enumKeysByValue]
    returns, on every search argument, those that are strings, numbers or
    [undefined] in particular; [toEnumKey] agrees with [enumKeyByKey] on
    every string.  The runs are equal, log included. *)
Theorem wrappers_agree_with_lookups (enumObj : JsVal) (options : option EnumOptions) :
  (forall v : JsVal,
      toEnumValue enumObj v options = enumValueByValue enumObj v options)
  /\ (forall v : JsVal,
      toEnumKeys enumObj v options = enumKeysByValue enumObj v options)
  /\ (forall s : string,
      toEnumKey enumObj (JStr s) options = enumKeyByKey enumObj (JStr s) options).
Proof.
  split; [|split].
  - intros v. unfold toEnumValue, enumValueByValue.
    rewrite (Array_filter_ext (fun x => equalFn (Some (or_empty options)) x v)
                              (fun x => equalFn options x v));
      [reflexivity | intros x; apply equalFn_or_empty].
  - intros v. unfold toEnumKeys, enumKeysByValue.
    rewrite (Array_filter_ext
               (fun key => equalFn (Some (or_empty options)) (Get enumObj key) v)
               (fun key => equalFn options (Get enumObj key) v));
      [reflexivity | intros x; apply equalFn_or_empty].
  - intros s. unfold toEnumKey, enumKeyByKey.
    destruct (validateEnumLike enumObj) as [[]|e];
      [rewrite !bind_lift_Normal | now rewrite !bind_lift_Throw].
    cbn [is_nullish]. rewrite compareKey_of_string, bind_lift_Normal.
    cbn [typeof String.eqb negb].
    rewrite (Array_filter_ext
               (fun k => equalFn (Some (or_empty options)) (JStr k) (JStr s))
               (fun k => equalFn options (JStr k) (JStr s)))
      by (intros x; apply equalFn_or_empty).
    reflexivity.
Qed.

(** Without hooks of the caller the predicate never raises on enum values:
    the default conversions of a string or a number complete. *)
Lemma predicate_completes_without_hooks
  (options : option EnumOptions) (a b : JsVal) :
  field options normalize = None -> field options converter = None ->
  is_EnumValue a = true -> is_EnumValue b = true ->
  exists r, completion (equalFn options a b) = Normal r.
Proof.
  intros Hn Hc Ha Hb. rewrite equalFn_run. cbn [completion].
  unfold compare_as, normalize_of, convert_of. rewrite Hn, Hc. cbn [cbind].
  destruct (is_set (field options convert)); cbn [createConverter cbind]; [|eauto].
  destruct a; try discriminate; destruct b; try discriminate; cbn; eauto.
Qed.

(** C4 (as amended). On a valid enum-like object in which two distinct
    keys hold values that the configured predicate accepts for [V], and on
    whose entries the predicate completes without raising (as it always
    does when the options carry no [normalize] and no [converter]),
    [enumKeyByValue] throws
    ["Enum values are not unique. Cannot get key by value."], while
    [enumKeysByValue] returns all the matching keys, those two among them,
    in the key-iteration order of the object. *)
Theorem duplicate_detection
  (enumObj V : JsVal) (options : option EnumOptions) (k1 k2 : string) :
  validateEnumLike enumObj = Normal tt ->
  is_EnumValue V = true ->
  In k1 (Object_keys enumObj) -> In k2 (Object_keys enumObj) -> k1 <> k2 ->
  completion (equalFn options (Get enumObj k1) V) = Normal true ->
  completion (equalFn options (Get enumObj k2) V) = Normal true ->
  (forall k, In k (Object_keys enumObj) ->
             exists r, completion (equalFn options (Get enumObj k) V) = Normal r) ->
  completion (enumKeyByValue enumObj V options)
  = Throw (Error "Enum values are not unique. Cannot get key by value.")
  /\ completion (enumKeysByValue enumObj V options)
     = Normal (filter (matches options enumObj V) (Object_keys enumObj))
  /\ In k1 (filter (matches options enumObj V) (Object_keys enumObj))
  /\ In k2 (filter (matches options enumObj V) (Object_keys enumObj)).
Proof.
  intros Hv HV H1 H2 Hne E1 E2 Htotal.
  assert (M1 : matches options enumObj V k1 = true)
    by (unfold matches, accepts; now rewrite E1).
  assert (M2 : matches options enumObj V k2 = true)
    by (unfold matches, accepts; now rewrite E2).
  pose proof (filter_two _ _ _ _ H1 H2 Hne M1 M2) as Hlen.
  pose proof (Array_filter_total
                (fun key => equalFn options (Get enumObj key) V) _ Htotal) as Hscan.
  change (accepts (fun key => equalFn options (Get enumObj key) V))
    with (matches options enumObj V) in Hscan.
  unfold enumKeyByValue, enumKeysByValue.
  rewrite Hv, !bind_lift_Normal, (is_EnumValue_not_nullish V HV).
  rewrite completion_bind, Hscan.
  split; [|split; [reflexivity | split; apply filter_In; auto]].
  destruct (filter (matches options enumObj V) (Object_keys enumObj))
    as [|a [|b rest]]; cbn [List.length] in Hlen; try lia.
  reflexivity.
Qed.

Lemma duplicate_detection_witness :
  completion (enumKeyByValue Color (JStr "#0000ff") None)
  = Throw (Error "Enum values are not unique. Cannot get key by value.")
  /\ completion (enumKeysByValue Color (JStr "#0000ff") None)
     = Normal (filter (matches None Color (JStr "#0000ff")) (Object_keys Color))
  /\ In "Blue" (filter (matches None Color (JStr "#0000ff")) (Object_keys Color))
  /\ In "AlsoBlue" (filter (matches None Color (JStr "#0000ff")) (Object_keys Color)).
Proof.
  apply (duplicate_detection Color (JStr "#0000ff") None "Blue" "AlsoBlue").
  - reflexivity.
  - reflexivity.
  - simpl. tauto.
  - simpl. tauto.
  - discriminate.
  - reflexivity.
  - reflexivity.
  - intros k Hk. apply predicate_completes_without_hooks; try reflexivity.
    apply validated_values; [reflexivity | exact Hk].
Defined.

(** C4 fails as stated when the predicate raises on another entry.  On
    [{A: 'x', B: 'x', C: 1}] with the converter [v => v.trim()], the keys [A]
    and [B] both hold a value the predicate accepts for ['x'], but the
    converter throws on the value of [C]: both lookups end with its
    TypeError. *)
Lemma duplicate_detection_counterexample :
  validateEnumLike Mixed = Normal tt
  /\ Object_keys Mixed = ["A"; "B"; "C"]
  /\ completion (equalFn (Some (with_converter trimming)) (Get Mixed "A") (JStr "x"))
     = Normal true
  /\ completion (equalFn (Some (with_converter trimming)) (Get Mixed "B") (JStr "x"))
     = Normal true
  /\ completion (enumKeyByValue Mixed (JStr "x") (Some (with_converter trimming)))
     = Throw (TypeError "v.trim is not a function")
  /\ completion (enumKeyByValue Mixed (JStr "x") (Some (with_converter trimming)))
     <> Throw (Error "Enum values are not unique. Cannot get key by value.")
  /\ completion (enumKeysByValue Mixed (JStr "x") (Some (with_converter trimming)))
     = Throw (TypeError "v.trim is not a function").
Proof. repeat split. discriminate. Qed.

Lemma strict_equal_refl (v : JsVal) :
  is_EnumValue v = true -> v <> JNum JsNumber.NaN -> strict_equal v v = true.
Proof.
  destruct v as [| |b|n|s|z|i d|r src|r own inh pr|r es ps]; try discriminate; intros _ Hn.
  - destruct n as [|neg|m e]; cbn.
    + now elim Hn.
    + now destruct neg.
    + apply Z.eqb_refl.
  - apply String.eqb_refl.
Qed.

(** C5 (as amended). Lookup symmetry: on a valid enum-like object whose
    values are pairwise distinct, for every key [K] whose value is not [NaN],
    [enumKeyByValue(obj, enumValueByKey(obj, K))] with default options
    returns [K]. *)
Theorem lookup_symmetry (enumObj : JsVal) (K : string) :
  well_formed enumObj ->
  validateEnumLike enumObj = Normal tt ->
  distinct_values enumObj ->
  In K (Object_keys enumObj) ->
  Get enumObj K <> JNum JsNumber.NaN ->
  completion (value <- enumValueByKey enumObj (JStr K) None ;;
              enumKeyByValue enumObj value None)
  = Normal (JStr K).
Proof.
  intros Hwf Hv Hdist HK Hnan.
  pose proof (Object_keys_NoDup enumObj Hwf) as Hnd.
  pose proof (validated_values enumObj K Hv HK) as Hval.
  assert (Hkeys : completion (enumValueByKey enumObj (JStr K) None)
                  = Normal (Get enumObj K)).
  { unfold enumValueByKey. rewrite Hv, bind_lift_Normal. cbn [is_nullish].
    rewrite completion_bind.
    rewrite (Array_filter_pure _ (fun k => (k =? K)%string))
      by (intros k _; now rewrite equalFn_default).
    rewrite (filter_unique _ K); auto.
    - apply String.eqb_refl.
    - intros x _ Hx. now apply String.eqb_neq. }
  rewrite completion_bind, Hkeys.
  unfold enumKeyByValue. rewrite Hv, bind_lift_Normal.
  rewrite (is_EnumValue_not_nullish _ Hval), completion_bind.
  rewrite (Array_filter_pure _ (fun k => strict_equal (Get enumObj k) (Get enumObj K)))
    by (intros k _; now rewrite equalFn_default).
  rewrite (filter_unique _ K); auto.
  now apply strict_equal_refl.
Qed.

Lemma lookup_symmetry_witness :
  completion (value <- enumValueByKey doubledEnum (JStr "Four") None ;;
              enumKeyByValue doubledEnum value None)
  = Normal (JStr "Four").
Proof.
  apply (lookup_symmetry doubledEnum "Four").
  - unfold well_formed. simpl.
    repeat constructor; simpl; intuition discriminate.
  - reflexivity.
  - intros k1 k2 H1 H2 Hne. simpl in H1, H2.
    destruct H1 as [<-|[<-|[<-|[]]]], H2 as [<-|[<-|[<-|[]]]];
      try reflexivity; now elim Hne.
  - simpl. tauto.
  - discriminate.
Defined.

(** C5 fails as stated on [{A: NaN}], a valid enum-like object with one
    value: [enumValueByKey] returns [NaN] for the key [A], and [NaN] equals
    no value, so [enumKeyByValue] returns [undefined]. *)
Lemma lookup_symmetry_counterexample :
  well_formed NotANumber
  /\ validateEnumLike NotANumber = Normal tt
  /\ distinct_values NotANumber
  /\ In "A" (Object_keys NotANumber)
  /\ completion (enumValueByKey NotANumber (JStr "A") None) = Normal (JNum JsNumber.NaN)
  /\ completion (value <- enumValueByKey NotANumber (JStr "A") None ;;
                 enumKeyByValue NotANumber value None)
     = Normal JUndefined
  /\ completion (value <- enumValueByKey NotANumber (JStr "A") None ;;
                 enumKeyByValue NotANumber value None)
     <> Normal (JStr "A").
Proof.
  split; [|split; [|split; [|split; [|split; [|split]]]]]; try reflexivity.
  - unfold well_formed. simpl. repeat constructor. simpl. tauto.
  - intros k1 k2 H1 H2 Hne. simpl in H1, H2.
    destruct H1 as [<-|[]], H2 as [<-|[]]. now elim Hne.
  - simpl. tauto.
  - discriminate.
Qed.

(* ===================================================================== *)
(** ** Further properties of the scans *)
(* ===================================================================== *)

Lemma log_bind {A B : Type} (m : Run A) (k : A -> Run B) :
  log (bind m k)
  = match completion m with
    | Normal a => log m ++ log (k a)
    | Throw _ => log m
    end.
Proof. unfold bind. now destruct (completion m). Qed.

(** A scan that completes has called a callback that completed on every
    element, and kept the accepted ones. *)
Lemma Array_filter_inv {A : Type} (callback : A -> Run bool) (l r : list A) :
  completion (Array_filter callback l) = Normal r ->
  (forall x, In x l -> exists b, completion (callback x) = Normal b)
  /\ r = filter (accepts callback) l.
Proof.
  revert r. induction l as [|x rest IH]; intros r; cbn [Array_filter filter].
  - intros [= <-]. split; [intros x []|reflexivity].
  - rewrite completion_bind. unfold accepts at 1.
    destruct (completion (callback x)) as [b|e] eqn:Hx; [|discriminate].
    rewrite completion_bind.
    destruct (completion (Array_filter callback rest)) as [kept|e] eqn:Hrest;
      [|discriminate].
    destruct (IH kept eq_refl) as [Hall ->].
    cbn [ret completion]. intros [= <-]. split.
    + intros y [<-|Hy]; eauto.
    + now destruct b.
Qed.

(** A scan whose callback completes everywhere logs what the callback logs
    on each element, in order. *)
Lemma Array_filter_log {A : Type} (callback : A -> Run bool) (l : list A) :
  (forall x, In x l -> exists b, completion (callback x) = Normal b) ->
  log (Array_filter callback l) = flat_map (fun x => log (callback x)) l.
Proof.
  induction l as [|x rest IH]; intros Hall; [reflexivity|].
  cbn [Array_filter flat_map]. rewrite log_bind.
  destruct (Hall x (or_introl eq_refl)) as [b Hb]. rewrite Hb.
  rewrite log_bind.
  rewrite (Array_filter_total callback rest) by (intros y Hy; apply Hall; now right).
  cbn [ret log]. rewrite app_nil_r. f_equal.
  apply IH. intros y Hy. apply Hall. now right.
Qed.

Lemma Array_some_total {A : Type} (callback : A -> Run bool) (l : list A) :
  (forall x, In x l -> exists b, completion (callback x) = Normal b) ->
  completion (Array_some callback l) = Normal (existsb (accepts callback) l).
Proof.
  induction l as [|x rest IH]; intros Hall; [reflexivity|].
  cbn [Array_some existsb]. rewrite completion_bind. unfold accepts at 1.
  destruct (Hall x (or_introl eq_refl)) as [b Hb]. rewrite Hb.
  destruct b; [reflexivity|]. cbn [orb].
  apply IH. intros y Hy. apply Hall. now right.
Qed.

(** [some] never calls its callback where [filter] would not. *)
Lemma Array_some_log_prefix {A : Type} (callback : A -> Run bool) (l : list A) :
  log_prefix (log (Array_some callback l)) (log (Array_filter callback l)).
Proof.
  unfold log_prefix. induction l as [|x rest [tail IH]]; [now exists []|].
  cbn [Array_some Array_filter]. rewrite !log_bind.
  destruct (completion (callback x)) as [[|]|e].
  - cbn [ret log]. rewrite app_nil_r. eauto.
  - rewrite log_bind.
    destruct (completion (Array_filter callback rest)) as [kept|e'].
    + cbn [ret log]. rewrite app_nil_r, IH. exists tail. now rewrite app_assoc.
    + rewrite IH. exists tail. now rewrite app_assoc.
  - exists []. now rewrite app_nil_r.
Qed.

Lemma filter_nil_iff {A : Type} (f : A -> bool) (l : list A) :
  filter f l = [] <-> existsb f l = false.
Proof.
  induction l as [|x rest IH]; cbn; [tauto|].
  destruct (f x); cbn; [split; discriminate | exact IH].
Qed.

Lemma Object_values_entries (o : JsVal) (v : JsVal) :
  In v (Object_values o) -> exists k, In (k, v) (Object_entries o).
Proof.
  unfold Object_values. intros H. apply in_map_iff in H.
  destruct H as [[k v'] [Hv Hin]]. cbn in Hv. subst v'. eauto.
Qed.

(** What a validated object holds among its values. *)
Lemma validated_Object_values (o v : JsVal) :
  well_formed o -> validateEnumLike o = Normal tt -> In v (Object_values o) ->
  is_EnumValue v = true.
Proof.
  intros Hwf Hv Hin. destruct (Object_values_entries o v Hin) as [k Hk].
  rewrite <- (Get_entry o k v Hwf Hk). apply validated_values; [exact Hv|].
  unfold Object_keys. change k with (fst (k, v)). now apply in_map.
Qed.

(* ===================================================================== *)
(** ** Further properties of the lookups *)
(* ===================================================================== *)

(** X1. Fail fast: when the validator rejects the enum object, every lookup
    and every wrapper ends with the validator's exception, whatever the
    search term and the options, and without a single comparison. *)
Theorem invalid_enum_fails_fast
  (enumObj term : JsVal) (options : option EnumOptions) (e : Exn) :
  validateEnumLike enumObj = Throw e ->
  enumValueByValue enumObj term options = mkRun [] (Throw e)
  /\ enumValueByKey enumObj term options = mkRun [] (Throw e)
  /\ enumKeysByValue enumObj term options = mkRun [] (Throw e)
  /\ enumKeyByKey enumObj term options = mkRun [] (Throw e)
  /\ enumKeyByValue enumObj term options = mkRun [] (Throw e)
  /\ isEnumValue enumObj term options = mkRun [] (Throw e)
  /\ toEnumValue enumObj term options = mkRun [] (Throw e)
  /\ isEnumKey enumObj term options = mkRun [] (Throw e)
  /\ toEnumKey enumObj term options = mkRun [] (Throw e)
  /\ toEnumKeys enumObj term options = mkRun [] (Throw e).
Proof.
  intros Hv.
  unfold enumValueByValue, enumValueByKey, enumKeyByKey, enumKeyByValue,
    enumKeysByValue, toEnumValue, toEnumKey, toEnumKeys, isEnumValue, isEnumKey.
  rewrite Hv, !bind_lift_Throw. repeat split.
Qed.

Lemma invalid_enum_fails_fast_witness :
  enumValueByValue (object_literal 42 [("A", JBool true)]) (JStr "x") None
  = mkRun [] (Throw (Error "Invalid enum value: true. Expected string or number."))
  /\ toEnumKeys JNull JNull (Some with_convert)
     = mkRun [] (Throw (Error "The enum object is required.")).
Proof.
  split.
  - apply (invalid_enum_fails_fast (object_literal 42 [("A", JBool true)]) (JStr "x")
             None (Error "Invalid enum value: true. Expected string or number.")).
    reflexivity.
  - apply (invalid_enum_fails_fast JNull JNull (Some with_convert)
             (Error "The enum object is required.")).
    reflexivity.
Defined.

(** X2. The singular lookup by value is the plural one, read: on every enum
    object, term and options, [enumKeyByValue] returns [undefined] when
    [enumKeysByValue] returns no key, the key when it returns one, throws
    ["Enum values are not unique. Cannot get key by value."] when it returns
    several, and ends with the same exception when it throws; the two make
    the same comparisons. *)
Theorem enumKeyByValue_reads_enumKeysByValue
  (enumObj value : JsVal) (options : option EnumOptions) :
  completion (enumKeyByValue enumObj value options)
  = singular_of_keys values_not_unique_key_by_value
      (completion (enumKeysByValue enumObj value options))
  /\ log (enumKeyByValue enumObj value options)
     = log (enumKeysByValue enumObj value options).
Proof.
  unfold enumKeyByValue, enumKeysByValue.
  destruct (validateEnumLike enumObj) as [[]|e];
    [rewrite !bind_lift_Normal | rewrite !bind_lift_Throw; now split].
  destruct (is_nullish value); [now split|].
  rewrite completion_bind, log_bind.
  destruct (completion (Array_filter
              (fun key => equalFn options (Get enumObj key) value)
              (Object_keys enumObj))) as [[|a [|b rest]]|e];
    cbn; rewrite ?app_nil_r; now split.
Qed.

(** X3. [enumValueByKey] is [enumKeyByKey] followed by a property read: the
    two make the same comparisons; when [enumKeyByKey] returns a key [k],
    which is then a key of the object, [enumValueByKey] returns [obj[k]];
    when it returns [undefined] so does [enumValueByKey]; and one throws
    exactly when the other does. *)
Theorem enumValueByKey_reads_enumKeyByKey
  (enumObj key : JsVal) (options : option EnumOptions) :
  log (enumValueByKey enumObj key options) = log (enumKeyByKey enumObj key options)
  /\ (forall k : string,
        completion (enumKeyByKey enumObj key options) = Normal (JStr k) ->
        completion (enumValueByKey enumObj key options) = Normal (Get enumObj k)
        /\ In k (Object_keys enumObj))
  /\ (completion (enumKeyByKey enumObj key options) = Normal JUndefined ->
      completion (enumValueByKey enumObj key options) = Normal JUndefined)
  /\ (throws (completion (enumKeyByKey enumObj key options))
      <-> throws (completion (enumValueByKey enumObj key options))).
Proof.
  unfold enumValueByKey, enumKeyByKey.
  destruct (validateEnumLike enumObj) as [[]|e];
    [rewrite !bind_lift_Normal
    | rewrite !bind_lift_Throw; cbn; repeat split; try discriminate; auto].
  destruct (is_nullish key).
  { cbn. repeat split; try discriminate; auto. }
  rewrite !completion_bind, !log_bind.
  destruct (completion (Array_filter (fun k => equalFn options (JStr k) key)
                                     (Object_keys enumObj)))
    as [found|e] eqn:Hscan.
  2:{ repeat split; try discriminate; auto. }
  destruct (Array_filter_inv _ _ _ Hscan) as [_ Hfound].
  destruct found as [|a [|b rest]]; cbn.
  - repeat split; try discriminate; auto; intros [x Hx]; discriminate.
  - repeat split; try discriminate; try (intros [x Hx]; discriminate).
    + now injection H as <-.
    + injection H as <-.
      assert (Hin : In a (filter (accepts (fun k => equalFn options (JStr k) key))
                                 (Object_keys enumObj)))
        by (rewrite <- Hfound; now left).
      now apply filter_In in Hin.
  - repeat split; try discriminate; intros _; unfold throws; eauto.
Qed.

Lemma enumValueByKey_reads_enumKeyByKey_witness :
  completion (enumValueByKey Color (JStr "blue") (Some with_ignoreCase))
  = Normal (Get Color "Blue")
  /\ In "Blue" (Object_keys Color).
Proof.
  apply (proj1 (proj2 (enumValueByKey_reads_enumKeyByKey
                         Color (JStr "blue") (Some with_ignoreCase)))).
  reflexivity.
Defined.

(** X4. What a lookup by value returns is an entry of the enum: when
    [enumValueByValue] returns a value that is not [undefined], that value
    is the one value of the object the predicate accepts for the input; and
    when [enumKeyByValue] returns a key, that key is the one key of the
    object whose value the predicate accepts.  The input itself is never
    handed back. *)
Theorem lookups_return_entries
  (enumObj value : JsVal) (options : option EnumOptions) :
  (forall v : JsVal,
      completion (enumValueByValue enumObj value options) = Normal v ->
      v <> JUndefined ->
      filter (accepts (fun w => equalFn options w value)) (Object_values enumObj) = [v]
      /\ In v (Object_values enumObj)
      /\ completion (equalFn options v value) = Normal true)
  /\ (forall k : string,
      completion (enumKeyByValue enumObj value options) = Normal (JStr k) ->
      filter (matches options enumObj value) (Object_keys enumObj) = [k]
      /\ In k (Object_keys enumObj)
      /\ completion (equalFn options (Get enumObj k) value) = Normal true).
Proof.
  split.
  - intros v. unfold enumValueByValue.
    destruct (validateEnumLike enumObj) as [[]|e];
      [rewrite bind_lift_Normal | rewrite bind_lift_Throw; discriminate].
    destruct (is_nullish value); [intros [= <-] Hv; now elim Hv|].
    rewrite completion_bind.
    destruct (completion (Array_filter (fun w => equalFn options w value)
                                       (Object_values enumObj)))
      as [found|e] eqn:Hscan; [|discriminate].
    destruct (Array_filter_inv _ _ _ Hscan) as [_ Hfound].
    destruct found as [|a [|b rest]];
      cbn [List.length Nat.eqb Nat.ltb Nat.leb first_value first_key nth completion ret throw];
      try discriminate.
    + intros [= <-] Hv. now elim Hv.
    + intros [= <-] _. rewrite <- Hfound. split; [reflexivity|].
      assert (Hin : In a (filter (accepts (fun w => equalFn options w value))
                                 (Object_values enumObj)))
        by (rewrite <- Hfound; now left).
      apply filter_In in Hin. destruct Hin as [Hin Hacc]. split; [exact Hin|].
      unfold accepts in Hacc.
      destruct (completion (equalFn options a value)) as [[|]|]; congruence.
  - intros k. unfold enumKeyByValue.
    destruct (validateEnumLike enumObj) as [[]|e];
      [rewrite bind_lift_Normal | rewrite bind_lift_Throw; discriminate].
    destruct (is_nullish value); [discriminate|].
    rewrite completion_bind.
    destruct (completion (Array_filter
                (fun key => equalFn options (Get enumObj key) value)
                (Object_keys enumObj)))
      as [found|e] eqn:Hscan; [|discriminate].
    destruct (Array_filter_inv _ _ _ Hscan) as [_ Hfound].
    change (accepts (fun key => equalFn options (Get enumObj key) value))
      with (matches options enumObj value) in Hfound.
    destruct found as [|a [|b rest]];
      cbn [List.length Nat.eqb Nat.ltb Nat.leb first_value first_key nth completion ret throw];
      try discriminate.
    intros [= <-]. rewrite <- Hfound. split; [reflexivity|].
    assert (Hin : In a (filter (matches options enumObj value) (Object_keys enumObj)))
      by (rewrite <- Hfound; now left).
    apply filter_In in Hin. destruct Hin as [Hin Hacc]. split; [exact Hin|].
    unfold matches, accepts in Hacc.
    destruct (completion (equalFn options (Get enumObj a) value)) as [[|]|];
      congruence.
Qed.

Lemma lookups_return_entries_witness :
  (filter (accepts (fun w => equalFn (Some with_ignoreCase) w (JStr "#FF0000")))
          (Object_values Color) = [JStr "#ff0000"]
   /\ In (JStr "#ff0000") (Object_values Color)
   /\ completion (equalFn (Some with_ignoreCase) (JStr "#ff0000") (JStr "#FF0000"))
      = Normal true)
  /\ (filter (matches (Some with_convert) doubledEnum (JStr "4")) (Object_keys doubledEnum)
      = ["Four"]
      /\ In "Four" (Object_keys doubledEnum)
      /\ completion (equalFn (Some with_convert) (Get doubledEnum "Four") (JStr "4"))
         = Normal true).
Proof.
  split.
  - apply (proj1 (lookups_return_entries Color (JStr "#FF0000") (Some with_ignoreCase))
             (JStr "#ff0000")); [reflexivity | discriminate].
  - apply (proj2 (lookups_return_entries doubledEnum (JStr "4") (Some with_convert))
             "Four"). reflexivity.
Defined.

(** [some] calls its callback up to the first element it accepts, and no
    further. *)
Lemma Array_some_log {A : Type} (callback : A -> Run bool) (l : list A) :
  (forall x, In x l -> exists b, completion (callback x) = Normal b) ->
  log (Array_some callback l)
  = flat_map (fun x => log (callback x)) (upto_first (accepts callback) l).
Proof.
  induction l as [|x rest IH]; intros Hall; [reflexivity|].
  cbn [Array_some upto_first]. rewrite log_bind. unfold accepts at 1.
  destruct (Hall x (or_introl eq_refl)) as [b Hb]. rewrite Hb.
  destruct b; cbn [flat_map ret log]; [reflexivity|].
  f_equal. apply IH. intros y Hy. apply Hall. now right.
Qed.

(** X5. [isEnumValue] and [enumValueByValue] agree on absence: on a valid
    enum object, when the predicate completes on every value, [isEnumValue]
    returns [false] exactly when [enumValueByValue] returns [undefined] (a
    [true] means a value or the failure on several matches).  And
    [isEnumValue] stops at the first match: it compares the values in order
    up to the first one the predicate accepts, that one included, and none
    after it; its comparisons are an initial part of those of
    [enumValueByValue], which compares them all. *)
Theorem isEnumValue_agrees_with_enumValueByValue
  (enumObj value : JsVal) (options : option EnumOptions) :
  well_formed enumObj ->
  validateEnumLike enumObj = Normal tt ->
  (forall v, In v (Object_values enumObj) ->
             exists r, completion (equalFn options v value) = Normal r) ->
  (completion (isEnumValue enumObj value options) = Normal false
   <-> completion (enumValueByValue enumObj value options) = Normal JUndefined)
  /\ completion (isEnumValue enumObj value options)
     = Normal (negb (is_nullish value)
               && existsb (accepts (fun v => equalFn options v value))
                          (Object_values enumObj))
  /\ log_prefix (log (isEnumValue enumObj value options))
                (log (enumValueByValue enumObj value options))
  /\ log (isEnumValue enumObj value options)
     = (if is_nullish value then []
        else map (fun v => Compared v value)
                 (upto_first (accepts (fun v => equalFn options v value))
                             (Object_values enumObj)))
  /\ log (enumValueByValue enumObj value options)
     = (if is_nullish value then []
        else map (fun v => Compared v value) (Object_values enumObj)).
Proof.
  intros Hwf Hv Htotal. unfold isEnumValue, enumValueByValue.
  rewrite Hv, !bind_lift_Normal.
  destruct (is_nullish value).
  { cbn. split; [tauto|]. split; [reflexivity|]. split; [now exists []|].
    split; reflexivity. }
  rewrite (Array_some_ext (fun v => equalFn (Some (or_empty options)) v value)
                          (fun v => equalFn options v value))
    by (intros x; apply equalFn_or_empty).
  assert (Hflat : forall l : list JsVal,
             flat_map (fun x => log (equalFn options x value)) l
             = map (fun x => Compared x value) l).
  { intros l. induction l as [|x rest IH]; [reflexivity|].
    cbn [flat_map map]. now rewrite equalFn_run, IH. }
  rewrite (Array_some_total _ _ Htotal), completion_bind,
    (Array_filter_total _ _ Htotal).
  cbn [negb andb]. split; [|split; [reflexivity|split; [|split]]].
  - destruct (filter (accepts (fun v => equalFn options v value))
                     (Object_values enumObj)) as [|a [|b rest]] eqn:Hf.
    + apply filter_nil_iff in Hf. rewrite Hf. cbn. tauto.
    + assert (Hex : existsb (accepts (fun v => equalFn options v value))
                            (Object_values enumObj) = true).
      { destruct (existsb _ _) eqn:He; [reflexivity|].
        apply filter_nil_iff in He. congruence. }
      rewrite Hex. cbn.
      assert (Hin : In a (Object_values enumObj)).
      { assert (H : In a (filter (accepts (fun v => equalFn options v value))
                                 (Object_values enumObj)))
          by (rewrite Hf; now left).
        now apply filter_In in H. }
      pose proof (validated_Object_values _ _ Hwf Hv Hin) as Ha.
      split; [discriminate|]. intros [= ->]. discriminate.
    + assert (Hex : existsb (accepts (fun v => equalFn options v value))
                            (Object_values enumObj) = true).
      { destruct (existsb _ _) eqn:He; [reflexivity|].
        apply filter_nil_iff in He. congruence. }
      rewrite Hex. cbn. split; discriminate.
  - rewrite log_bind, (Array_filter_total _ _ Htotal).
    destruct (Array_some_log_prefix (fun v => equalFn options v value)
                                    (Object_values enumObj)) as [tail Htail].
    rewrite Htail. exists (tail ++ log
      (if List.length (filter (accepts (fun v => equalFn options v value))
                              (Object_values enumObj)) =? 0
       then ret JUndefined
       else if 1 <? List.length (filter (accepts (fun v => equalFn options v value))
                                        (Object_values enumObj))
            then throw values_not_unique_by_value
            else ret (first_value (filter (accepts (fun v => equalFn options v value))
                                          (Object_values enumObj))))).
    now rewrite app_assoc.
  - now rewrite (Array_some_log _ _ Htotal), Hflat.
  - rewrite log_bind, (Array_filter_total _ _ Htotal),
      (Array_filter_log _ _ Htotal), Hflat.
    destruct (filter _ (Object_values enumObj)) as [|a [|b rest]]; cbn;
      now rewrite app_nil_r.
Qed.

Lemma isEnumValue_agrees_with_enumValueByValue_witness :
  log (isEnumValue Color (JStr "#ff0000") None)
  = [Compared (JStr "#ff0000") (JStr "#ff0000")]
  /\ log (enumValueByValue Color (JStr "#ff0000") None)
     = [Compared (JStr "#ff0000") (JStr "#ff0000");
        Compared (JStr "#0000ff") (JStr "#ff0000");
        Compared (JStr "#0000ff") (JStr "#ff0000")]
  /\ (completion (isEnumValue Color (JStr "#0000ff") None) = Normal false
      <-> completion (enumValueByValue Color (JStr "#0000ff") None) = Normal JUndefined).
Proof.
  assert (Hwf : well_formed Color).
  { unfold well_formed. simpl. repeat constructor; simpl; intuition discriminate. }
  assert (Htotal : forall x v, In v (Object_values Color) ->
                     exists r, completion (equalFn None v x) = Normal r).
  { intros x v _. rewrite equalFn_default. eauto. }
  destruct (isEnumValue_agrees_with_enumValueByValue Color (JStr "#ff0000") None
              Hwf eq_refl (Htotal _)) as [_ [_ [_ [Hsome Hall]]]].
  destruct (isEnumValue_agrees_with_enumValueByValue Color (JStr "#0000ff") None
              Hwf eq_refl (Htotal _)) as [Hiff _].
  split; [exact Hsome | split; [exact Hall | exact Hiff]].
Defined.

(** In a list without repetition, the filter on equality with [K] finds [K]
    or nothing. *)
Lemma filter_eqb_NoDup (K : string) (l : list string) :
  NoDup l ->
  filter (fun k => (k =? K)%string) l
  = if existsb (String.eqb K) l then [K] else [].
Proof.
  intros Hnd. destruct (existsb (String.eqb K) l) eqn:He.
  - apply existsb_exists in He. destruct He as [x [Hin Hx]].
    apply String.eqb_eq in Hx. subst x.
    apply filter_unique; auto.
    + apply String.eqb_refl.
    + intros x _ Hx. now apply String.eqb_neq.
  - apply filter_nil_iff. rewrite <- He. clear.
    induction l as [|x rest IH]; cbn; [reflexivity|].
    now rewrite IH, String.eqb_sym.
Qed.

Lemma equalFn_ignoreCase_strings (a b : string) :
  completion (equalFn (Some with_ignoreCase) (JStr a) (JStr b))
  = Normal (JsString.toLowerCase a =? JsString.toLowerCase b)%string.
Proof. now rewrite equalFn_run. Qed.

Lemma equalFn_convert_strings (a b : string) :
  completion (equalFn (Some with_convert) (JStr a) (JStr b))
  = Normal (a =? b)%string.
Proof. now rewrite equalFn_run. Qed.

(** The scan of the keys for a string, with a predicate that is a test on
    the two strings. *)
Lemma key_scan (enumObj : JsVal) (options : option EnumOptions) (K : string)
  (test : string -> bool) :
  (forall k, completion (equalFn options (JStr k) (JStr K)) = Normal (test k)) ->
  completion (Array_filter (fun k => equalFn options (JStr k) (JStr K))
                           (Object_keys enumObj))
  = Normal (filter test (Object_keys enumObj)).
Proof. intros H. apply Array_filter_pure. intros k _. apply H. Qed.

(** X6. With default options the lookups by key are plain property reads:
    on a valid, well-formed enum object and a string [K], [enumKeyByKey]
    returns [K] when [K] is a key of the object and [undefined] when it is
    not, [enumValueByKey] returns [obj[K]] or [undefined], [isEnumKey]
    returns whether [K] is a key, and [toEnumKey] returns what [enumKeyByKey]
    returns; none of them throws. *)
Theorem key_lookups_with_default_options (enumObj : JsVal) (K : string) :
  well_formed enumObj ->
  validateEnumLike enumObj = Normal tt ->
  completion (enumKeyByKey enumObj (JStr K) None)
  = Normal (if has_key enumObj K then JStr K else JUndefined)
  /\ completion (enumValueByKey enumObj (JStr K) None)
     = Normal (if has_key enumObj K then Get enumObj K else JUndefined)
  /\ completion (isEnumKey enumObj (JStr K) None) = Normal (has_key enumObj K)
  /\ completion (toEnumKey enumObj (JStr K) None)
     = Normal (if has_key enumObj K then JStr K else JUndefined).
Proof.
  intros Hwf Hv. pose proof (Object_keys_NoDup enumObj Hwf) as Hnd.
  assert (Hscan : forall options,
             (forall a b, completion (equalFn options a b) = Normal (strict_equal a b)) ->
             completion (Array_filter (fun k => equalFn options (JStr k) (JStr K))
                                      (Object_keys enumObj))
             = Normal (if has_key enumObj K then [K] else [])).
  { intros options Hopt.
    rewrite (key_scan enumObj options K (fun k => (k =? K)%string))
      by (intros k; apply Hopt).
    now rewrite filter_eqb_NoDup. }
  assert (Hnone : forall a b,
             completion (equalFn (Some (or_empty None)) a b) = Normal (strict_equal a b)).
  { intros a b. rewrite equalFn_or_empty. apply equalFn_default. }
  unfold enumKeyByKey, enumValueByKey, isEnumKey, toEnumKey.
  rewrite Hv, !bind_lift_Normal. cbn [is_nullish].
  rewrite !compareKey_of_string, !bind_lift_Normal.
  cbn [typeof]. rewrite !String.eqb_refl. cbn [negb].
  rewrite !completion_bind, !(Hscan None equalFn_default), (Hscan _ Hnone).
  rewrite (Array_some_total (fun k => equalFn (Some (or_empty None)) (JStr k) (JStr K)))
    by (intros k _; rewrite Hnone; eauto).
  assert (Hsome : existsb (accepts (fun k => equalFn (Some (or_empty None)) (JStr k) (JStr K)))
                          (Object_keys enumObj) = has_key enumObj K).
  { unfold has_key. clear Hnd Hscan.
    induction (Object_keys enumObj) as [|x rest IH]; [reflexivity|].
    cbn [existsb]. unfold accepts at 1. rewrite Hnone. cbn [strict_equal].
    rewrite IH.
    destruct (String.eqb_spec x K), (String.eqb_spec K x); subst;
      try reflexivity; congruence. }
  rewrite Hsome.
  destruct (has_key enumObj K); repeat split.
Qed.

Lemma key_lookups_with_default_options_witness :
  (completion (enumKeyByKey Color (JStr "Blue") None)
   = Normal (if has_key Color "Blue" then JStr "Blue" else JUndefined)
   /\ completion (enumValueByKey Color (JStr "Blue") None)
      = Normal (if has_key Color "Blue" then Get Color "Blue" else JUndefined)
   /\ completion (isEnumKey Color (JStr "Blue") None) = Normal (has_key Color "Blue")
   /\ completion (toEnumKey Color (JStr "Blue") None)
      = Normal (if has_key Color "Blue" then JStr "Blue" else JUndefined))
  /\ has_key Color "Blue" = true /\ has_key Color "blue" = false.
Proof.
  split; [|split; reflexivity].
  apply (key_lookups_with_default_options Color "Blue").
  - unfold well_formed. simpl. repeat constructor; simpl; intuition discriminate.
  - reflexivity.
Defined.

(** X7. Folding case can make keys collide: on a valid enum object with two
    distinct keys that both lower-case to the lower-cased input, under
    [{ignoreCase: true}] [enumKeyByKey] and [toEnumKey] throw
    ["Enum keys are not unique. Cannot get key by key."], [enumValueByKey]
    throws ["Enum keys are not unique. Cannot get value by key."], and
    [isEnumKey] returns [true]. *)
Theorem ignoreCase_key_collision (enumObj : JsVal) (k1 k2 input : string) :
  validateEnumLike enumObj = Normal tt ->
  In k1 (Object_keys enumObj) -> In k2 (Object_keys enumObj) -> k1 <> k2 ->
  JsString.toLowerCase k1 = JsString.toLowerCase input ->
  JsString.toLowerCase k2 = JsString.toLowerCase input ->
  completion (enumKeyByKey enumObj (JStr input) (Some with_ignoreCase))
  = Throw (Error "Enum keys are not unique. Cannot get key by key.")
  /\ completion (toEnumKey enumObj (JStr input) (Some with_ignoreCase))
     = Throw (Error "Enum keys are not unique. Cannot get key by key.")
  /\ completion (enumValueByKey enumObj (JStr input) (Some with_ignoreCase))
     = Throw (Error "Enum keys are not unique. Cannot get value by key.")
  /\ completion (isEnumKey enumObj (JStr input) (Some with_ignoreCase)) = Normal true.
Proof.
  intros Hv H1 H2 Hne L1 L2.
  set (test := fun k => (JsString.toLowerCase k =? JsString.toLowerCase input)%string).
  assert (Hscan : completion (Array_filter
                    (fun k => equalFn (Some with_ignoreCase) (JStr k) (JStr input))
                    (Object_keys enumObj))
                  = Normal (filter test (Object_keys enumObj))).
  { apply key_scan. intros k. apply equalFn_ignoreCase_strings. }
  assert (T1 : test k1 = true) by (unfold test; rewrite L1; apply String.eqb_refl).
  assert (T2 : test k2 = true) by (unfold test; rewrite L2; apply String.eqb_refl).
  pose proof (filter_two test k1 k2 _ H1 H2 Hne T1 T2) as Hlen.
  unfold enumKeyByKey, toEnumKey, enumValueByKey, isEnumKey.
  rewrite Hv, !bind_lift_Normal. cbn [is_nullish or_empty].
  rewrite !compareKey_of_string, !bind_lift_Normal.
  cbn [typeof]. rewrite !String.eqb_refl. cbn [negb].
  rewrite !completion_bind, Hscan.
  rewrite (Array_some_total
             (fun k => equalFn (Some with_ignoreCase) (JStr k) (JStr input)))
    by (intros k _; rewrite equalFn_ignoreCase_strings; eauto).
  assert (Hsome : existsb (accepts (fun k => equalFn (Some with_ignoreCase)
                                                    (JStr k) (JStr input)))
                          (Object_keys enumObj) = true).
  { apply existsb_exists. exists k1. split; [exact H1|].
    unfold accepts. rewrite equalFn_ignoreCase_strings. fold (test k1). now rewrite T1. }
  rewrite Hsome.
  destruct (filter test (Object_keys enumObj)) as [|a [|b rest]];
    cbn [List.length] in Hlen; try lia.
  repeat split.
Qed.

Lemma ignoreCase_key_collision_witness :
  completion (enumKeyByKey RedRed (JStr "RED") (Some with_ignoreCase))
  = Throw (Error "Enum keys are not unique. Cannot get key by key.")
  /\ completion (toEnumKey RedRed (JStr "RED") (Some with_ignoreCase))
     = Throw (Error "Enum keys are not unique. Cannot get key by key.")
  /\ completion (enumValueByKey RedRed (JStr "RED") (Some with_ignoreCase))
     = Throw (Error "Enum keys are not unique. Cannot get value by key.")
  /\ completion (isEnumKey RedRed (JStr "RED") (Some with_ignoreCase)) = Normal true.
Proof.
  apply (ignoreCase_key_collision RedRed "Red" "red" "RED");
    try reflexivity; try discriminate; simpl; tauto.
Defined.

(* ===================================================================== *)
(** ** Further properties of the predicate and of the conversions *)
(* ===================================================================== *)

Lemma lower_char_idempotent (c : ascii) :
  JsString.lower_char (JsString.lower_char c) = JsString.lower_char c.
Proof. destruct c as [[] [] [] [] [] [] [] []]; reflexivity. Qed.

Lemma toLowerCase_idempotent (s : string) :
  JsString.toLowerCase (JsString.toLowerCase s) = JsString.toLowerCase s.
Proof.
  induction s as [|c rest IH]; [reflexivity|].
  cbn [JsString.toLowerCase]. now rewrite lower_char_idempotent, IH.
Qed.

(** X8. Under [{ignoreCase: true}] two strings are equal exactly when their
    lower-case forms are the same string.  The comparison is therefore
    reflexive and symmetric, and the case of the input does not matter: the
    lower-cased input gives the same answer. *)
Theorem ignoreCase_compares_lower_case (a b : string) :
  completion (equalFn (Some with_ignoreCase) (JStr a) (JStr b))
  = Normal (JsString.toLowerCase a =? JsString.toLowerCase b)%string
  /\ completion (equalFn (Some with_ignoreCase) (JStr a) (JStr a)) = Normal true
  /\ completion (equalFn (Some with_ignoreCase) (JStr b) (JStr a))
     = completion (equalFn (Some with_ignoreCase) (JStr a) (JStr b))
  /\ completion (equalFn (Some with_ignoreCase) (JStr a) (JStr (JsString.toLowerCase b)))
     = completion (equalFn (Some with_ignoreCase) (JStr a) (JStr b))
  /\ completion (equalFn (Some with_ignoreCase) (JStr (JsString.toLowerCase a)) (JStr b))
     = completion (equalFn (Some with_ignoreCase) (JStr a) (JStr b)).
Proof.
  rewrite !equalFn_ignoreCase_strings, !toLowerCase_idempotent, String.eqb_refl.
  repeat split. now rewrite String.eqb_sym.
Qed.

(** The result of [toNumber] is a number that is not [NaN], or [undefined]. *)
Lemma toNumber_cases (v : JsVal) :
  toNumber v = JUndefined
  \/ exists n, toNumber v = JNum n /\ JsNumber.isNaN n = false.
Proof.
  destruct v as [| |b|n|s|z|i d|r src|r own inh pr|r es ps]; cbn [toNumber]; auto.
  - destruct n as [|neg|m e]; cbn; eauto.
  - destruct (0 <? String.length (JsString.trim s)); cbn [andb]; auto.
    destruct (JsNumber.isNaN (JsString.to_number (JsString.trim s))) eqn:Hn;
      cbn [negb]; eauto.
Qed.

(** X9. The default conversions are idempotent and land in the target type:
    converting a converted value again changes nothing; a conversion to
    ['string'] that completes gives a string; a conversion to ['number']
    gives a number or [undefined]; and [toNumber] never gives [NaN]: its
    result is [undefined] or a number that is not [NaN]. *)
Theorem default_conversion_idempotent (value : JsVal) (toType : ToType) :
  cbind (defaultConverter value toType) (fun w => defaultConverter w toType)
  = defaultConverter value toType
  /\ match defaultConverter value TString with
     | Normal w => typeof w = "string"
     | Throw _ => True
     end
  /\ match defaultConverter value TNumber with
     | Normal w => typeof w = "number" \/ w = JUndefined
     | Throw _ => False
     end
  /\ (toNumber value = JUndefined
      \/ exists n, toNumber value = JNum n /\ JsNumber.isNaN n = false)
  /\ toNumber (toNumber value) = toNumber value.
Proof.
  split; [|split; [|split; [|split]]].
  - unfold defaultConverter. destruct toType; cbn [ToType_eqb andb].
    + destruct (typeof value =? "string")%string eqn:Hs; cbn [negb cbind].
      * now rewrite Hs.
      * destruct (String_ value) as [s|e]; reflexivity.
    + destruct (typeof value =? "number")%string eqn:Hs; cbn [negb cbind].
      * now rewrite Hs.
      * destruct (toNumber_cases value) as [->|[n [-> _]]]; reflexivity.
  - unfold defaultConverter. cbn [ToType_eqb andb].
    destruct (String.eqb_spec (typeof value) "string") as [Hs|Hs]; cbn [negb].
    + exact Hs.
    + destruct (String_ value) as [s|e]; cbn; auto.
  - unfold defaultConverter. cbn [ToType_eqb andb].
    destruct (String.eqb_spec (typeof value) "number") as [Hs|Hs]; cbn [negb].
    + now left.
    + destruct (toNumber_cases value) as [->|[n [-> _]]]; auto.
  - apply toNumber_cases.
  - destruct (toNumber_cases value) as [->|[n [-> Hn]]]; [reflexivity|].
    cbn [toNumber]. now rewrite Hn.
Qed.

(** X11. Without [convert], [isEnumKey] and [toEnumKey] refuse a key that is
    not a string before any comparison: on a valid enum object they return
    [false] and [undefined] with an empty log. *)
Theorem non_string_key_is_not_scanned
  (enumObj key : JsVal) (options : option EnumOptions) :
  validateEnumLike enumObj = Normal tt ->
  typeof key <> "string" ->
  is_set (convert (or_empty options)) = false ->
  isEnumKey enumObj key options = mkRun [] (Normal false)
  /\ toEnumKey enumObj key options = mkRun [] (Normal JUndefined).
Proof.
  intros Hv Hk Hc. unfold isEnumKey, toEnumKey.
  rewrite Hv, !bind_lift_Normal.
  destruct (is_nullish key); [now split|].
  unfold compareKey_of. rewrite Hc, !bind_lift_Normal.
  destruct (String.eqb_spec (typeof key) "string") as [H|H]; [contradiction|].
  now split.
Qed.

Lemma non_string_key_is_not_scanned_witness :
  isEnumKey Color (JInt 123) (Some with_ignoreCase) = mkRun [] (Normal false)
  /\ toEnumKey Color (JInt 123) (Some with_ignoreCase) = mkRun [] (Normal JUndefined).
Proof.
  apply (non_string_key_is_not_scanned Color (JInt 123) (Some with_ignoreCase));
    [reflexivity | discriminate | reflexivity].
Defined.

(** X12. A lookup is one full linear scan: on a valid enum object and a
    search term that is neither [null] nor [undefined], when the predicate
    completes on every entry, [enumKeysByValue] and [enumKeyByValue] compare
    the value under each key with the term, once, in key order, and
    [enumValueByValue] compares each value with the term, once, in order;
    a match does not end the scan. *)
Theorem lookups_scan_every_entry
  (enumObj value : JsVal) (options : option EnumOptions) :
  validateEnumLike enumObj = Normal tt ->
  is_nullish value = false ->
  (forall k, In k (Object_keys enumObj) ->
             exists r, completion (equalFn options (Get enumObj k) value) = Normal r) ->
  (forall v, In v (Object_values enumObj) ->
             exists r, completion (equalFn options v value) = Normal r) ->
  log (enumKeysByValue enumObj value options)
  = map (fun k => Compared (Get enumObj k) value) (Object_keys enumObj)
  /\ log (enumKeyByValue enumObj value options)
     = map (fun k => Compared (Get enumObj k) value) (Object_keys enumObj)
  /\ log (enumValueByValue enumObj value options)
     = map (fun v => Compared v value) (Object_values enumObj).
Proof.
  intros Hv Hn Hkeys Hvalues.
  assert (Hflat : forall (A : Type) (f : A -> JsVal) (l : list A),
             flat_map (fun x => log (equalFn options (f x) value)) l
             = map (fun x => Compared (f x) value) l).
  { intros A f l. induction l as [|x rest IH]; [reflexivity|].
    cbn [flat_map map]. now rewrite equalFn_run, IH. }
  unfold enumKeysByValue, enumKeyByValue, enumValueByValue.
  rewrite Hv, !bind_lift_Normal, Hn, !log_bind.
  rewrite (Array_filter_total _ _ Hkeys), (Array_filter_total _ _ Hvalues).
  rewrite (Array_filter_log _ _ Hkeys), (Array_filter_log _ _ Hvalues).
  rewrite (Hflat string (Get enumObj)), (Hflat JsVal (fun v => v)).
  split; [reflexivity|]. split.
  - destruct (filter _ (Object_keys enumObj)) as [|a [|b rest]]; cbn;
      now rewrite app_nil_r.
  - destruct (filter _ (Object_values enumObj)) as [|a [|b rest]]; cbn;
      now rewrite app_nil_r.
Qed.

Lemma lookups_scan_every_entry_witness :
  log (enumKeysByValue Color (JStr "#ff0000") None)
  = map (fun k => Compared (Get Color k) (JStr "#ff0000")) (Object_keys Color)
  /\ log (enumKeyByValue Color (JStr "#ff0000") None)
     = map (fun k => Compared (Get Color k) (JStr "#ff0000")) (Object_keys Color)
  /\ log (enumValueByValue Color (JStr "#ff0000") None)
     = map (fun v => Compared v (JStr "#ff0000")) (Object_values Color).
Proof.
  apply (lookups_scan_every_entry Color (JStr "#ff0000") None).
  - reflexivity.
  - reflexivity.
  - intros k _. rewrite equalFn_default. eauto.
  - intros v _. rewrite equalFn_default. eauto.
Defined.

(** X13. With [convert] and a key that is not a string, [toEnumKey] prints
    the key and looks the printed form up among the keys; it does not map a
    value to its key.  On a valid, well-formed enum object and a term that
    prints as [s], [toEnumKey] returns [s] when [s] is a key of the object
    and [undefined] when it is not, and [isEnumKey] returns whether [s] is a
    key. *)
Theorem toEnumKey_prints_its_argument (enumObj key : JsVal) (s : string) :
  well_formed enumObj ->
  validateEnumLike enumObj = Normal tt ->
  is_nullish key = false ->
  String_ key = Normal s ->
  completion (toEnumKey enumObj key (Some with_convert))
  = Normal (if has_key enumObj s then JStr s else JUndefined)
  /\ completion (isEnumKey enumObj key (Some with_convert))
     = Normal (has_key enumObj s).
Proof.
  intros Hwf Hv Hn Hs. pose proof (Object_keys_NoDup enumObj Hwf) as Hnd.
  unfold toEnumKey, isEnumKey. cbn [or_empty].
  rewrite Hv, !bind_lift_Normal, Hn.
  unfold compareKey_of. cbn [with_convert convert is_set]. rewrite Hs.
  cbn [cbind]. rewrite !bind_lift_Normal.
  cbn [typeof]. rewrite !String.eqb_refl. cbn [negb].
  rewrite completion_bind.
  rewrite (key_scan enumObj (Some with_convert) s (fun k => (k =? s)%string))
    by (intros k; apply equalFn_convert_strings).
  rewrite (filter_eqb_NoDup s _ Hnd).
  rewrite (Array_some_total (fun k => equalFn (Some with_convert) (JStr k) (JStr s)))
    by (intros k _; rewrite equalFn_convert_strings; eauto).
  assert (Hsome : existsb (accepts (fun k => equalFn (Some with_convert) (JStr k) (JStr s)))
                          (Object_keys enumObj) = has_key enumObj s).
  { unfold has_key. clear Hnd.
    induction (Object_keys enumObj) as [|x rest IH]; [reflexivity|].
    cbn [existsb]. unfold accepts at 1. rewrite equalFn_convert_strings, IH.
    destruct (String.eqb_spec x s), (String.eqb_spec s x); subst;
      try reflexivity; congruence. }
  rewrite Hsome. fold (has_key enumObj s).
  destruct (has_key enumObj s); split; reflexivity.
Qed.

Lemma toEnumKey_prints_its_argument_witness :
  (completion (toEnumKey Priority (JInt 2) (Some with_convert))
   = Normal (if has_key Priority "2" then JStr "2" else JUndefined)
   /\ completion (isEnumKey Priority (JInt 2) (Some with_convert))
      = Normal (has_key Priority "2"))
  /\ (completion (toEnumKey doubledEnum (JInt 2) (Some with_convert))
      = Normal (if has_key doubledEnum "2" then JStr "2" else JUndefined)
      /\ completion (isEnumKey doubledEnum (JInt 2) (Some with_convert))
         = Normal (has_key doubledEnum "2"))
  /\ has_key Priority "2" = true /\ has_key doubledEnum "2" = false.
Proof.
  split; [|split; [|split; reflexivity]].
  - apply (toEnumKey_prints_its_argument Priority (JInt 2) "2"); try reflexivity.
    unfold well_formed. simpl. repeat constructor; simpl; intuition discriminate.
  - apply (toEnumKey_prints_its_argument doubledEnum (JInt 2) "2"); try reflexivity.
    unfold well_formed. simpl. repeat constructor; simpl; intuition discriminate.
Defined.

(* ===================================================================== *)
(** ** Further properties of the validator *)
(* ===================================================================== *)






(** The template literal of [validateEnumLike] runs the conversion of the
    value it reports: an object without prototype makes it raise a
    TypeError, and a [toString] of the value's own gives the text. *)
Example validateEnumLike_prints_the_value :
  validateEnumLike bareEnum = Throw (TypeError "Cannot convert object to primitive value")
  /\ validateEnumLike (object_literal 53 [("A", JObject 54 [] [] (Normal "hi"))])
     = Throw (Error "Invalid enum value: hi. Expected string or number.").
Proof. split; reflexivity. Qed.

Lemma no_keys_no_values (o : JsVal) :
  Object_keys o = [] -> Object_values o = [].
Proof.
  unfold Object_keys, Object_values. intros H.
  apply map_eq_nil in H. now rewrite H.
Qed.

(** X15. An enum object without keys matches nothing: on a valid enum
    object with no own enumerable string key, whatever the search term and
    the options, the singular lookups and [toEnumValue] return [undefined],
    the plural ones the empty list, and [isEnumValue] [false], without a
    comparison; so do [toEnumKey] and [isEnumKey] on every string. *)
Theorem empty_enum_matches_nothing
  (enumObj term : JsVal) (options : option EnumOptions) :
  validateEnumLike enumObj = Normal tt ->
  Object_keys enumObj = [] ->
  enumValueByValue enumObj term options = mkRun [] (Normal JUndefined)
  /\ enumValueByKey enumObj term options = mkRun [] (Normal JUndefined)
  /\ enumKeyByKey enumObj term options = mkRun [] (Normal JUndefined)
  /\ enumKeyByValue enumObj term options = mkRun [] (Normal JUndefined)
  /\ enumKeysByValue enumObj term options = mkRun [] (Normal [])
  /\ toEnumValue enumObj term options = mkRun [] (Normal JUndefined)
  /\ toEnumKeys enumObj term options = mkRun [] (Normal [])
  /\ isEnumValue enumObj term options = mkRun [] (Normal false)
  /\ (forall s : string,
        toEnumKey enumObj (JStr s) options = mkRun [] (Normal JUndefined)
        /\ isEnumKey enumObj (JStr s) options = mkRun [] (Normal false)).
Proof.
  intros Hv Hkeys. pose proof (no_keys_no_values enumObj Hkeys) as Hvalues.
  unfold enumValueByValue, enumValueByKey, enumKeyByKey, enumKeyByValue,
    enumKeysByValue, toEnumValue, toEnumKey, toEnumKeys, isEnumValue, isEnumKey.
  rewrite Hv, !bind_lift_Normal, Hkeys, Hvalues.
  destruct (is_nullish term); repeat split;
    cbn [is_nullish]; rewrite ?compareKey_of_string, ?bind_lift_Normal;
    reflexivity.
Qed.

Lemma empty_enum_matches_nothing_witness :
  enumKeysByValue emptyEnumLike (JStr "any") None = mkRun [] (Normal [])
  /\ toEnumValue emptyEnumLike (JInt 1) (Some (with_converter trimming))
     = mkRun [] (Normal JUndefined).
Proof.
  destruct (empty_enum_matches_nothing emptyEnumLike (JStr "any") None
              eq_refl eq_refl) as [_ [_ [_ [_ [H5 _]]]]].
  destruct (empty_enum_matches_nothing emptyEnumLike (JInt 1)
              (Some (with_converter trimming)) eq_refl eq_refl)
    as [_ [_ [_ [_ [_ [H6 _]]]]]].
  split; [exact H5 | exact H6].
Defined.

(** A scan that fails fails with the exception of its callback on one of
    the elements. *)
Lemma Array_filter_throw {A : Type} (callback : A -> Run bool) (l : list A) (e : Exn) :
  completion (Array_filter callback l) = Throw e ->
  exists x, In x l /\ completion (callback x) = Throw e.
Proof.
  induction l as [|x rest IH]; cbn [Array_filter]; [discriminate|].
  rewrite completion_bind.
  destruct (completion (callback x)) as [b|e'] eqn:Hx.
  - rewrite completion_bind.
    destruct (completion (Array_filter callback rest)) as [kept|e'']; [discriminate|].
    intros [= <-]. destruct (IH eq_refl) as [y [Hy He]]. exists y. split; [now right|exact He].
  - intros [= <-]. exists x. split; [now left|exact Hx].
Qed.

(** X10. Where the exceptions of a lookup by value come from.
    [enumKeysByValue] ends with an exception only when the validator
    rejects the enum object or when the predicate (a hook of the caller, or
    the printing of the input) raises on the value of one of the keys; it
    never reports an ambiguity.  [enumKeyByValue] has one more:
    ["Enum values are not unique. Cannot get key by value."], raised only
    when the predicate accepts the values of two distinct positions among
    the keys. *)
Theorem lookup_exceptions
  (enumObj value : JsVal) (options : option EnumOptions) (e : Exn) :
  (completion (enumKeysByValue enumObj value options) = Throw e ->
   validateEnumLike enumObj = Throw e
   \/ exists k, In k (Object_keys enumObj)
                /\ completion (equalFn options (Get enumObj k) value) = Throw e)
  /\ (completion (enumKeyByValue enumObj value options) = Throw e ->
      validateEnumLike enumObj = Throw e
      \/ (exists k, In k (Object_keys enumObj)
                    /\ completion (equalFn options (Get enumObj k) value) = Throw e)
      \/ (e = Error "Enum values are not unique. Cannot get key by value."
          /\ 2 <= List.length (filter (matches options enumObj value)
                                      (Object_keys enumObj)))).
Proof.
  unfold enumKeysByValue, enumKeyByValue.
  destruct (validateEnumLike enumObj) as [[]|x];
    [rewrite !bind_lift_Normal
    | rewrite !bind_lift_Throw; cbn; split; intros [= <-]; now left].
  destruct (is_nullish value); [split; discriminate|].
  split.
  - intros H. right. now apply Array_filter_throw in H.
  - rewrite completion_bind.
    destruct (completion (Array_filter
                (fun key => equalFn options (Get enumObj key) value)
                (Object_keys enumObj))) as [found|x] eqn:Hscan.
    + destruct (Array_filter_inv _ _ _ Hscan) as [_ Hfound].
      change (accepts (fun key => equalFn options (Get enumObj key) value))
        with (matches options enumObj value) in Hfound.
      rewrite <- Hfound.
      destruct found as [|a [|b rest]]; cbn; try discriminate.
      intros [= <-]. right. right. split; [reflexivity | lia].
    + intros [= <-]. right. left. now apply Array_filter_throw in Hscan.
Qed.

Lemma lookup_exceptions_witness :
  (validateEnumLike Mixed = Throw (TypeError "v.trim is not a function")
   \/ exists k, In k (Object_keys Mixed)
                /\ completion (equalFn (Some (with_converter trimming))
                                       (Get Mixed k) (JStr "x"))
                   = Throw (TypeError "v.trim is not a function"))
  /\ (validateEnumLike Color
      = Throw (Error "Enum values are not unique. Cannot get key by value.")
      \/ (exists k, In k (Object_keys Color)
                    /\ completion (equalFn None (Get Color k) (JStr "#0000ff"))
                       = Throw (Error "Enum values are not unique. Cannot get key by value."))
      \/ (Error "Enum values are not unique. Cannot get key by value."
          = Error "Enum values are not unique. Cannot get key by value."
          /\ 2 <= List.length (filter (matches None Color (JStr "#0000ff"))
                                      (Object_keys Color)))).
Proof.
  split.
  - apply (proj1 (lookup_exceptions Mixed (JStr "x") (Some (with_converter trimming))
                    (TypeError "v.trim is not a function"))).
    reflexivity.
  - apply (proj2 (lookup_exceptions Color (JStr "#0000ff") None
                    (Error "Enum values are not unique. Cannot get key by value."))).
    reflexivity.
Defined.
